(** * dozzle: the log handlers of [internal/web/logs.go]

    A shallow embedding of the HTTP handlers that download, export and
    stream container logs, and of the merge loop that multiplexes the
    per-container producers on one server-sent-event connection.

    The handlers are written in state-passing style over the response
    writer, the logger and a trace of the calls made to the external
    collaborators (container registry, log source).  The collaborators
    themselves are the fields of [Env]. *)

From stdpp Require Import base strings list gmap pretty.

Open Scope string_scope.
Open Scope Z_scope.

(** ** Data model *)

(** The newline the handlers write as ["\n"]. *)
Definition LF : string := String (Ascii.ascii_of_nat 10) EmptyString.

(** [time.Time], counted from the zero instant [time.Time{}]. *)
Definition Time := Z.
Definition zeroTime : Time := 0.
Definition RFC3339Nano : string := "2006-01-02T15:04:05.999999999Z07:00".

(** A Go [error] value: its message and what [errors.Is] answers for
    the two sentinels the handlers test, [io.EOF] and
    [context.Canceled]. *)
Record GoError := mkError {
  errMsg : string;
  isEOF : bool;
  isCanceled : bool
}.

(** Modelled from the spec: the [docker.StdType] flags are declared in
    the docker package; they are two distinct bit flags combined with
    bitwise or, and the empty selection is [0]. *)
Definition StdType := Z.
Definition STDOUT : StdType := 1.
Definition STDERR : StdType := 2.

(** [docker.Container], with the fields the handlers read. *)
Record Container := mkContainer {
  ID : string;
  Name : string;
  Host : string;
  State : string;
  Group : string;
  Labels : gmap string string;
  StartedAt : Time;
  Tty : bool
}.

(** Modelled from the spec: [docker.LogEvent] is declared in the docker
    package; the data model gives it a container id, a host, a stream, a
    timestamp (0 if unknown) and a message.  The handlers read only
    [Timestamp]. *)
Record LogEvent := mkLogEvent {
  ContainerID : string;
  LogHost : string;
  Stream : string;
  Timestamp : Z;
  Message : string
}.

(** [docker.ContainerEvent] as the handlers build it. *)
Record ContainerEvent := mkContainerEvent {
  ActorID : string;
  EventName : string;
  EventHost : string
}.

(** A receive-only channel of log events as a range loop sees it:
    a nil channel (receiving blocks forever), a channel that delivers
    some events and is then closed, or one that delivers some events
    and is never closed. *)
Inductive EventChan :=
| NilChan
| ClosedAfter (evs : list LogEvent)
| OpenAfter (evs : list LogEvent).

(** ** The request and the response writer *)

Record Request := mkRequest {
  URLParam : gmap string string;          (* chi.URLParam *)
  Query : gmap string (list string);      (* r.URL.Query() *)
  ReqHeader : gmap string string          (* r.Header.Get *)
}.

Definition Query_Has (r : Request) (k : string) : bool :=
  bool_decide (is_Some (Query r !! k)).

Definition Query_Get (r : Request) (k : string) : string :=
  match Query r !! k with
  | Some (v :: _) => v
  | _ => ""
  end.

Definition Query_values (r : Request) (k : string) : list string :=
  default [] (Query r !! k).

Definition chi_URLParam (r : Request) (k : string) : string :=
  default "" (URLParam r !! k).

Definition Header_Get (r : Request) (k : string) : string :=
  default "" (ReqHeader r !! k).

(** What reaches the transport, in order. *)
Inductive Op :=
| Write (s : string)
| Flush.

Record ResponseWriter := mkWriter {
  header : gmap string (list string);
  (* status line and headers as sent, once they are sent *)
  wroteHeader : option (Z * gmap string (list string));
  written : list Op;
  (* whether the writer implements http.Flusher *)
  isFlusher : bool
}.

Definition newWriter (flusher : bool) : ResponseWriter :=
  mkWriter ∅ None [] flusher.

Definition Header_Set (k v : string) (w : ResponseWriter) : ResponseWriter :=
  mkWriter (<[k := [v]]> (header w)) (wroteHeader w) (written w) (isFlusher w).

Definition Header_Add (k v : string) (w : ResponseWriter) : ResponseWriter :=
  mkWriter (<[k := (default [] (header w !! k) ++ [v])%list]> (header w))
           (wroteHeader w) (written w) (isFlusher w).

Definition Header_Del (k : string) (w : ResponseWriter) : ResponseWriter :=
  mkWriter (delete k (header w)) (wroteHeader w) (written w) (isFlusher w).

(** [w.WriteHeader]: only the first call counts. *)
Definition WriteHeader (code : Z) (w : ResponseWriter) : ResponseWriter :=
  match wroteHeader w with
  | Some _ => w
  | None => mkWriter (header w) (Some (code, header w)) (written w) (isFlusher w)
  end.

(** [w.Write]: sends status 200 first when no status was sent. *)
Definition w_Write (s : string) (w : ResponseWriter) : ResponseWriter :=
  let w := WriteHeader 200 w in
  mkWriter (header w) (wroteHeader w) (written w ++ [Write s])%list (isFlusher w).

Definition w_Flush (w : ResponseWriter) : ResponseWriter :=
  let w := WriteHeader 200 w in
  mkWriter (header w) (wroteHeader w) (written w ++ [Flush])%list (isFlusher w).

(** [http.Error] of net/http. *)
Definition http_Error (msg : string) (code : Z) (w : ResponseWriter) : ResponseWriter :=
  let w := Header_Del "Content-Length" w in
  let w := Header_Set "Content-Type" "text/plain; charset=utf-8" w in
  let w := Header_Set "X-Content-Type-Options" "nosniff" w in
  let w := WriteHeader code w in
  w_Write (msg +:+ LF) w.

Definition StatusBadRequest : Z := 400.
Definition StatusNotFound : Z := 404.
Definition StatusInternalServerError : Z := 500.

(** ** The logger *)

Inductive Level := DebugLevel | WarnLevel | ErrorLevel.

Record LogEntry := mkLog {
  level : Level;
  logMsg : string;
  logErr : option GoError          (* log.WithError *)
}.

(** ** The external collaborators *)

(** Calls that leave the handler, in the order they are made. *)
Inductive Call :=
| CallFindContainer (host id : string)
| CallRawLogs (c : Container) (from to : Time) (std : StdType)
| CallLogsBetweenDates (c : Container) (from to : Time) (std : StdType)
| CallListAllContainersFiltered
| CallSubscribeContainersStarted
| CallStreamLogs (c : Container) (since : Time) (std : StdType)
| CallGo (c : Container).            (* go streamLogs(container) *)

Record GzipHeader := mkGzipHeader {
  gzName : string;
  gzComment : string;
  gzModTime : Time
}.

Record Env := mkEnv {
  hostKey : Request → string;
  time_Parse : string → string → Time + GoError;
  time_Now : Time;
  time_Format : Time → string → string;
  (* the service of a container is identified with its descriptor *)
  FindContainer : string → string → Container + GoError;
  RawLogs : Container → Time → Time → StdType → string + GoError;
  LogsBetweenDates :
    Container → Time → Time → StdType → EventChan * option GoError;
  ListAllContainersFiltered :
    (Container → bool) → list Container * list GoError;
  (* the events StreamLogs sends on the channel, and what it returns *)
  StreamLogs : Container → Time → StdType → list LogEvent * option GoError;
  json_Marshal : LogEvent → string + GoError;
  json_MarshalEvent : ContainerEvent → string + GoError;
  (* the bytes a gzip writer emits for a header and a payload *)
  gzip_bytes : GzipHeader → string → string;
  stdcopy_StdCopy : string → string;
  (* fmt's %v of the values the handlers log *)
  fmt_errs : list GoError → string;
  fmt_event : ContainerEvent → string;
  IsDebugEnabled : bool
}.

(** The state a handler threads through its statements. *)
Record St := mkSt {
  w : ResponseWriter;
  logged : list LogEntry;
  calls : list Call
}.

Definition initSt (flusher : bool) : St := mkSt (newWriter flusher) [] [].

Definition onW (f : ResponseWriter → ResponseWriter) (s : St) : St :=
  mkSt (f (w s)) (logged s) (calls s).

Definition logf (l : Level) (msg : string) (s : St) : St :=
  mkSt (w s) (logged s ++ [mkLog l msg None])%list (calls s).

Definition call (c : Call) (s : St) : St :=
  mkSt (w s) (logged s) (calls s ++ [c])%list.

(** How a handler ends: it returns, or it blocks forever. *)
Inductive Outcome :=
| Returned (s : St)
| Blocked (s : St).

Definition final (o : Outcome) : St :=
  match o with Returned s | Blocked s => s end.

(** The status the client receives once the handler has returned:
    the server sends 200 when the handler never sent one. *)
Definition status_of (o : Outcome) : option Z :=
  match o with
  | Returned s =>
      match wroteHeader (w s) with
      | Some (code, _) => Some code
      | None => Some 200
      end
  | Blocked s => fst <$> wroteHeader (w s)
  end.

(** The stream-type selection every handler starts from. *)
Definition stdTypes_of (r : Request) : StdType :=
  let stdTypes := 0 in
  let stdTypes := if Query_Has r "stdout" then Z.lor stdTypes STDOUT else stdTypes in
  let stdTypes := if Query_Has r "stderr" then Z.lor stdTypes STDERR else stdTypes in
  stdTypes.

(** [strings.Contains]. *)
Fixpoint strings_Contains (s sub : string) : bool :=
  String.prefix sub s ||
  match s with
  | EmptyString => false
  | String _ s' => strings_Contains s' sub
  end.

(** ** downloadLogs *)

Definition downloadLogs (env : Env) (r : Request) (s : St) : Outcome :=
  let id := chi_URLParam r "id" in
  let s := call (CallFindContainer (hostKey env r) id) s in
  match FindContainer env (hostKey env r) id with
  | inr err => Returned (onW (http_Error (errMsg err) StatusBadRequest) s)
  | inl containerService =>
      let now := time_Now env in
      let nowFmt := time_Format env now "2006-01-02T15-04-05" in
      let contentDisposition :=
        "attachment; filename=" +:+ Name containerService +:+ "-" +:+ nowFmt +:+ ".log" in
      let s :=
        if strings_Contains (Header_Get r "Accept-Encoding") "gzip" then
          onW (Header_Set "Content-Type" "application/text")
            (onW (Header_Set "Content-Encoding" "gzip")
               (onW (Header_Set "Content-Disposition" contentDisposition) s))
        else
          onW (Header_Set "Content-Type" "application/gzip")
            (onW (Header_Set "Content-Disposition" (contentDisposition +:+ ".gz")) s) in
      let stdTypes := stdTypes_of r in
      if stdTypes =? 0 then
        Returned (onW (http_Error "stdout or stderr is required" StatusBadRequest) s)
      else
        let zw := mkGzipHeader (Name containerService +:+ "-" +:+ nowFmt +:+ ".log")
                               "Logs generated by Dozzle" now in
        let s := call (CallRawLogs containerService zeroTime now stdTypes) s in
        match RawLogs env containerService zeroTime now stdTypes with
        | inr err =>
            let s := onW (http_Error (errMsg err) StatusInternalServerError) s in
            (* deferred zw.Close() *)
            Returned (onW (w_Write (gzip_bytes env zw "")) s)
        | inl reader =>
            let payload :=
              if Tty containerService then reader else stdcopy_StdCopy env reader in
            (* deferred zw.Close() *)
            Returned (onW (w_Write (gzip_bytes env zw payload)) s)
        end
  end.

(** ** The ring buffer of the range export *)

Module RingBuffer.
Section Buffer.
Context {T : Type}.

(** Modelled from the spec: [utils.RingBuffer] is defined in the utils
    package.  A buffer of fixed capacity holds the most recently pushed
    items in push order; once as many items as the capacity are held,
    a push evicts the single oldest held item; the snapshot returns the
    held items oldest first. *)
Record t := mk {
  Size : nat;
  data : list T
}.

Definition NewRingBuffer (size : nat) : t := mk size [].

Definition Push (x : T) (r : t) : t :=
  if decide (length (data r) < Size r)%nat
  then mk (Size r) (data r ++ [x])%list
  else mk (Size r) (drop 1 (data r) ++ [x])%list.

Definition Data (r : t) : list T := data r.

Definition pushAll (xs : list T) (r : t) : t :=
  foldl (λ b x, Push x b) r xs.
End Buffer.
Arguments t : clear implicits.
End RingBuffer.

(** The last [n] items of a list, in their order. *)
Definition lastn {A} (n : nat) (l : list A) : list A :=
  drop (length l - n) l.

(** ** fetchLogsBetweenDates *)

(** [from, _ := time.Parse(...)]: the error is dropped, and a failed
    parse leaves the zero time. *)
Definition parse_ignoring_error (env : Env) (v : string) : Time :=
  match time_Parse env RFC3339Nano v with
  | inl t => t
  | inr _ => zeroTime
  end.

(** One [encoder.Encode(event)] of the export loop. *)
Definition encode_one (env : Env) (s : St) (event : LogEvent) : St :=
  match json_Marshal env event with
  | inl buf => onW (w_Write (buf +:+ LF)) s
  | inr err =>
      logf ErrorLevel ("json encoding error while streaming " +:+ errMsg err) s
  end.

Definition fetchLogsBetweenDates (env : Env) (r : Request) (s : St) : Outcome :=
  let s := onW (Header_Set "Content-Type" "application/x-jsonl; charset=UTF-8") s in
  let from := parse_ignoring_error env (Query_Get r "from") in
  let to := parse_ignoring_error env (Query_Get r "to") in
  let id := chi_URLParam r "id" in
  let stdTypes := stdTypes_of r in
  if stdTypes =? 0 then
    Returned (onW (http_Error "stdout or stderr is required" StatusBadRequest) s)
  else
    let s := call (CallFindContainer (hostKey env r) id) s in
    match FindContainer env (hostKey env r) id with
    | inr err => Returned (onW (http_Error (errMsg err) StatusNotFound) s)
    | inl containerService =>
        let s := call (CallLogsBetweenDates containerService from to stdTypes) s in
        let '(events, err) := LogsBetweenDates env containerService from to stdTypes in
        let s :=
          match err with
          | Some err => logf ErrorLevel ("error while streaming logs " +:+ errMsg err) s
          | None => s
          end in
        let buffer := RingBuffer.NewRingBuffer 500 in
        match events with
        | NilChan => Blocked s
        | OpenAfter _ => Blocked s
        | ClosedAfter evs =>
            let buffer := RingBuffer.pushAll evs buffer in
            Returned (foldl (encode_one env) s (RingBuffer.Data buffer))
        end
    end.

(** ** The container filters of the streaming handlers *)

Definition ContainerFilter := Container → bool.

Definition label (c : Container) (k : string) : string :=
  default "" (Labels c !! k).

(** streamContainerLogs *)
Definition filter_single_id (env : Env) (r : Request) : ContainerFilter :=
  let id := chi_URLParam r "id" in
  λ container,
    bool_decide (ID container = id) && bool_decide (Host container = hostKey env r).

(** The [ids] map of streamLogsMerged. *)
Definition ids_of (r : Request) : gmap string bool :=
  foldl (λ ids id, <[id := true]> ids) ∅ (Query_values r "id").

(** streamLogsMerged *)
Definition filter_id_set (env : Env) (r : Request) : ContainerFilter :=
  let ids := ids_of r in
  λ container,
    default false (ids !! ID container) &&
    bool_decide (Host container = hostKey env r).

(** streamServiceLogs *)
Definition filter_service (r : Request) : ContainerFilter :=
  let service := chi_URLParam r "service" in
  λ container,
    bool_decide (State container = "running") &&
    bool_decide (label container "com.docker.swarm.service.name" = service).

(** streamGroupedLogs *)
Definition filter_group (r : Request) : ContainerFilter :=
  let group := chi_URLParam r "group" in
  λ container,
    bool_decide (State container = "running") &&
    bool_decide (Group container = group).

(** streamStackLogs *)
Definition filter_stack (r : Request) : ContainerFilter :=
  let stack := chi_URLParam r "stack" in
  λ container,
    bool_decide (State container = "running") &&
    bool_decide (label container "com.docker.stack.namespace" = stack).

(** ** The producers *)

(** What a producer goroutine does, in program order. *)
Inductive ProducerAct :=
| PCall (c : Call)
| PLog (l : LogEntry)
| PSendLog (e : LogEvent)              (* logs <- e, inside StreamLogs *)
| PSendEvent (e : ContainerEvent).     (* events <- e *)

Definition stopped_event (container : Container) : ContainerEvent :=
  mkContainerEvent (ID container) "container-stopped" (Host container).

Definition started_event (container : Container) : ContainerEvent :=
  mkContainerEvent (ID container) "container-started" (Host container).

(** The closure [streamLogs] of streamLogsForContainers. *)
Definition streamLogs (env : Env) (stdTypes : StdType) (container : Container)
  : list ProducerAct :=
  PCall (CallFindContainer (Host container) (ID container)) ::
  match FindContainer env (Host container) (ID container) with
  | inr err =>
      [PLog (mkLog ErrorLevel ("error while finding container " +:+ errMsg err) None)]
  | inl containerService =>
      let '(sent, err) :=
        StreamLogs env containerService (StartedAt container) stdTypes in
      (PCall (CallStreamLogs containerService (StartedAt container) stdTypes)
         :: map PSendLog sent) ++
      match err with
      | None => []
      | Some err =>
          if isEOF err then
            [PLog (mkLog DebugLevel
                     ("stream closed for container " +:+ Name container) (Some err));
             PSendEvent (stopped_event container)]
          else if negb (isCanceled err) then
            [PLog (mkLog ErrorLevel
                     ("unknown error while streaming " +:+ errMsg err) None)]
          else []
      end
  end%list.

(** ** The merge loop *)

(** The cases of the [select]. *)

(** [case event := <-logs] *)
Definition on_log (env : Env) (event : LogEvent) (s : St) : St :=
  let s :=
    match json_Marshal env event with
    | inr err =>
        logf ErrorLevel ("json encoding error while streaming " +:+ errMsg err) s
    | inl buf => onW (w_Write ("data: " +:+ buf +:+ LF)) s
    end in
  let s :=
    if 0 <? Timestamp event
    then onW (w_Write ("id: " +:+ pretty (Timestamp event) +:+ LF)) s
    else s in
  let s := onW (w_Write LF) s in
  onW w_Flush s.

(** [case <-ticker.C] *)
Definition on_tick (s : St) : St :=
  onW w_Flush (onW (w_Write (":ping " +:+ LF +:+ LF)) s).

(** [case event := <-events] *)
Definition on_event (env : Env) (event : ContainerEvent) (s : St) : St :=
  let s := logf DebugLevel ("received container event " +:+ fmt_event env event) s in
  match json_MarshalEvent env event with
  | inr err =>
      logf ErrorLevel ("json encoding error while streaming " +:+ errMsg err) s
  | inl buf =>
      onW w_Flush
        (onW (w_Write ("event: container-event" +:+ LF +:+
                       "data: " +:+ buf +:+ LF +:+ LF)) s)
  end.

(** [case <-r.Context().Done()] and what follows the loop. *)
Definition on_done (env : Env) (s : St) : St :=
  let s := logf DebugLevel "context cancelled" s in
  if IsDebugEnabled env then logf DebugLevel "runtime mem stats" s else s.

Inductive LoopStatus :=
| Looping
(* the loop is inside [events <- ...] of the new-container case *)
| BlockedOnSend (ev : ContainerEvent) (c : Container)
| Exited.

(** A streaming session: the handler's state, the lifecycle channel
    (buffered, capacity 1), and the producer goroutines with what each
    has still to do. *)
Record Session := mkSession {
  st : St;
  events : list ContainerEvent;
  producers : list (list ProducerAct);
  loop : LoopStatus
}.

Definition eventsCap : nat := 1.

(** What happens next: one of the cases of the [select] is taken, or a
    producer goroutine takes a step of its own. *)
Inductive Choice :=
| ChLog (i : nat)                  (* producer i hands its event over on logs *)
| ChTick
| ChNewContainer (c : Container)
| ChEvent
| ChDone
| ChProducer (i : nat).

Definition is_looping (x : Session) : bool :=
  match loop x with Looping => true | _ => false end.

Definition step (env : Env) (filter : ContainerFilter) (stdTypes : StdType)
    (x : Session) (ch : Choice) : option Session :=
  match ch with
  | ChLog i =>
      match producers x !! i with
      | Some (PSendLog e :: rest) =>
          if is_looping x
          then Some (mkSession (on_log env e (st x)) (events x)
                               (<[i := rest]> (producers x)) Looping)
          else None
      | _ => None
      end
  | ChTick =>
      if is_looping x
      then Some (mkSession (on_tick (st x)) (events x) (producers x) Looping)
      else None
  | ChNewContainer container =>
      if is_looping x && filter container then
        if decide (length (events x) < eventsCap)%nat then
          Some (mkSession (call (CallGo container) (st x))
                          (events x ++ [started_event container])
                          (producers x ++ [streamLogs env stdTypes container])
                          Looping)
        else
          Some (mkSession (st x) (events x) (producers x)
                          (BlockedOnSend (started_event container) container))
      else None
  | ChEvent =>
      match events x with
      | event :: rest =>
          if is_looping x
          then Some (mkSession (on_event env event (st x)) rest (producers x) Looping)
          else None
      | [] => None
      end
  | ChDone =>
      if is_looping x
      then Some (mkSession (on_done env (st x)) (events x) (producers x) Exited)
      else None
  | ChProducer i =>
      match producers x !! i with
      | Some (PCall c :: rest) =>
          Some (mkSession (call c (st x)) (events x)
                          (<[i := rest]> (producers x)) (loop x))
      | Some (PLog l :: rest) =>
          Some (mkSession (mkSt (w (st x)) (logged (st x) ++ [l]) (calls (st x)))
                          (events x) (<[i := rest]> (producers x)) (loop x))
      | Some (PSendEvent ev :: rest) =>
          if decide (length (events x) < eventsCap)%nat
          then Some (mkSession (st x) (events x ++ [ev])
                               (<[i := rest]> (producers x)) (loop x))
          else None
      | _ => None
      end
  end%list.

Fixpoint run (env : Env) (filter : ContainerFilter) (stdTypes : StdType)
    (x : Session) (sched : list Choice) : option Session :=
  match sched with
  | [] => Some x
  | ch :: sched =>
      match step env filter stdTypes x ch with
      | Some x' => run env filter stdTypes x' sched
      | None => None
      end
  end.

(** ** streamLogsForContainers *)

(** Up to the merge loop: either the handler has returned, or the
    session is set up. *)
Definition streamLogsForContainers (env : Env) (r : Request)
    (filter : ContainerFilter) (s : St) : Outcome + Session :=
  let stdTypes := stdTypes_of r in
  if stdTypes =? 0 then
    inl (Returned (onW (http_Error "stdout or stderr is required" StatusBadRequest) s))
  else if negb (isFlusher (w s)) then
    inl (Returned (onW (http_Error "Streaming unsupported!" StatusInternalServerError) s))
  else
    let s := onW (Header_Set "Content-Type" "text/event-stream") s in
    let s := onW (Header_Set "Cache-Control" "no-transform") s in
    let s := onW (Header_Add "Cache-Control" "no-cache") s in
    let s := onW (Header_Set "Connection" "keep-alive") s in
    let s := onW (Header_Set "X-Accel-Buffering" "no") s in
    let s := call CallListAllContainersFiltered s in
    let '(existingContainers, errs) := ListAllContainersFiltered env filter in
    let s :=
      if (0 <? length errs)%nat
      then logf WarnLevel ("error while listing containers " +:+ fmt_errs env errs) s
      else s in
    let s := foldl (λ s container, call (CallGo container) s) s existingContainers in
    let s := call CallSubscribeContainersStarted s in
    inr (mkSession s [] (map (streamLogs env stdTypes) existingContainers) Looping).

(** The whole handler under a schedule of the session. *)
Definition streamLogsForContainers_run (env : Env) (r : Request)
    (filter : ContainerFilter) (s : St) (sched : list Choice)
  : option (Outcome + Session) :=
  match streamLogsForContainers env r filter s with
  | inl o => Some (inl o)
  | inr x =>
      match run env filter (stdTypes_of r) x sched with
      | Some x' =>
          Some (match loop x' with
                | Exited => inl (Returned (st x'))
                | BlockedOnSend _ _ => inl (Blocked (st x'))
                | Looping => inr x'
                end)
      | None => None
      end
  end.

Definition streamContainerLogs (env : Env) (r : Request) (s : St) :=
  streamLogsForContainers env r (filter_single_id env r) s.

Definition streamLogsMerged (env : Env) (r : Request) (s : St) : Outcome + Session :=
  if negb (Query_Has r "id") then
    inl (Returned (onW (http_Error "ids query parameter is required" StatusBadRequest) s))
  else streamLogsForContainers env r (filter_id_set env r) s.

Definition streamServiceLogs (env : Env) (r : Request) (s : St) :=
  streamLogsForContainers env r (filter_service r) s.

Definition streamGroupedLogs (env : Env) (r : Request) (s : St) :=
  streamLogsForContainers env r (filter_group r) s.

Definition streamStackLogs (env : Env) (r : Request) (s : St) :=
  streamLogsForContainers env r (filter_stack r) s.

(** ** What the statements observe *)

(** The status that has been sent, if any, is 200. *)
Definition sent_ok (s : St) : Prop :=
  wroteHeader (w s) = None ∨ ∃ h, wroteHeader (w s) = Some (200, h).

(** What one event contributes to the body, and to the log. *)
Definition line_of (env : Env) (e : LogEvent) : option Op :=
  match json_Marshal env e with
  | inl buf => Some (Write (buf +:+ LF))
  | inr _ => None
  end.

Definition encode_error_of (env : Env) (e : LogEvent) : option LogEntry :=
  match json_Marshal env e with
  | inl _ => None
  | inr err =>
      Some (mkLog ErrorLevel ("json encoding error while streaming " +:+ errMsg err) None)
  end.

(** The line of an event in the body of an export, given its encoding. *)
Definition json_line (enc : LogEvent → string) (e : LogEvent) : Op :=
  Write (enc e +:+ LF).

(** The value of a header as it was sent. *)
Definition sent_header (s : St) (k : string) : option (list string) :=
  match wroteHeader (w s) with
  | Some (_, h) => h !! k
  | None => None
  end.

(** The headers of a bare [http.Error]. *)
Definition error_headers : gmap string (list string) :=
  <["X-Content-Type-Options" := ["nosniff"]]>
    (<["Content-Type" := ["text/plain; charset=utf-8"]]> ∅).

(** A request is refused before any work: status 400, the message as
    the whole body, the headers of the error alone, no call made, no
    goroutine started, nothing logged. *)
Definition refused_before_work (msg : string) (o : Outcome) : Prop :=
  ∃ s, o = Returned s ∧
       wroteHeader (w s) = Some (StatusBadRequest, error_headers) ∧
       written (w s) = [Write (msg +:+ LF)] ∧
       calls s = [] ∧ logged s = [].

(** A request is surfaced as a client error with no work performed. *)
Definition client_error_without_work (o : Outcome) : Prop :=
  ∃ code, status_of o = Some code ∧ 400 ≤ code < 500 ∧
          calls (final o) = [] ∧
          ∀ s, o = Returned s → ∃ msg, written (w s) = [Write msg].

(** The [id:] line of a frame: present exactly when the timestamp is
    positive. *)
Definition id_line (ts : Z) : list Op :=
  if bool_decide (0 < ts) then [Write ("id: " +:+ pretty ts +:+ LF)] else [].

Definition lifecycle_frame (buf : string) : list Op :=
  [Write ("event: container-event" +:+ LF +:+ "data: " +:+ buf +:+ LF +:+ LF); Flush].

(** What a producer does up to the end of its stream. *)
Definition producer_prefix (std : StdType) (c svc : Container)
    (sent : list LogEvent) : list ProducerAct :=
  PCall (CallFindContainer (Host c) (ID c))
    :: PCall (CallStreamLogs svc (StartedAt c) std)
    :: map PSendLog sent.

(** ** A sample deployment, for the examples *)

Module Sample.
Definition DQ : string := String (Ascii.ascii_of_nat 34) EmptyString.
Definition q (s : string) : string := DQ +:+ s +:+ DQ.

(** One host [h1]; when a session opens it has a running container
    [c1] and an exited one [c2]. *)
Definition web : Container :=
  mkContainer "c1" "web" "h1" "running" "" ∅ 1000 false.
Definition job : Container :=
  mkContainer "c2" "job" "h1" "exited" "" ∅ 2000 false.

(** A container that starts while a session is open, and its first line. *)
Definition late : Container :=
  mkContainer "c3" "late" "h1" "running" "" ∅ 3000 false.
Definition lateLine : LogEvent := mkLogEvent "c3" "h1" "stdout" 9 "hello".

Definition notFound : GoError := mkError "container not found" false false.
Definition badTime : GoError := mkError "cannot parse time" false false.
Definition daemonDown : GoError := mkError "cannot connect to daemon" false false.
Definition unsupported : GoError := mkError "json: unsupported value" false false.
Definition EOF : GoError := mkError "EOF" true false.

(** 2024-01-01T00:00:00Z and the day after, in nanoseconds from the
    zero instant. *)
Definition jan1 : Time := 63839664000 * 1000000000.
Definition jan2 : Time := 63839750400 * 1000000000.

Definition parse (layout value : string) : Time + GoError :=
  if String.eqb value "2024-01-01T00:00:00Z" then inl jan1
  else if String.eqb value "2024-01-02T00:00:00Z" then inl jan2
  else inr badTime.

Definition find (host id : string) : Container + GoError :=
  if String.eqb host "h1" && String.eqb id "c1" then inl web
  else if String.eqb host "h1" && String.eqb id "c2" then inl job
  else if String.eqb host "h1" && String.eqb id "c3" then inl late
  else inr notFound.

Definition encode (e : LogEvent) : string :=
  "{" +:+ q "ts" +:+ ":" +:+ pretty (Timestamp e) +:+ "," +:+
  q "m" +:+ ":" +:+ q (Message e) +:+ "}".

Definition encodeEvent (ev : ContainerEvent) : string :=
  "{" +:+ q "name" +:+ ":" +:+ q (EventName ev) +:+ "," +:+
  q "actorId" +:+ ":" +:+ q (ActorID ev) +:+ "," +:+
  q "host" +:+ ":" +:+ q (EventHost ev) +:+ "}".

(** The [n]-th line of [c1]. *)
Definition line (n : nat) : LogEvent :=
  mkLogEvent "c1" "h1" "stdout" (Z.of_nat n) "line".

Definition lines (n : nat) : list LogEvent := map line (seq 1 n).

(** The deployment, given what the log source answers to a range query,
    what it streams, and the JSON encoder of log events. *)
Definition env
    (between : EventChan * option GoError)
    (stream : list LogEvent * option GoError)
    (marshal : LogEvent → string + GoError) : Env :=
  {| hostKey := λ r, chi_URLParam r "host";
     time_Parse := parse;
     time_Now := jan2;
     time_Format := λ _ _, "2024-01-02T00-00-00";
     FindContainer := find;
     RawLogs := λ _ _ _ _, inl "raw";
     LogsBetweenDates := λ _ _ _ _, between;
     ListAllContainersFiltered := λ f, (filter (λ c, f c = true) [web; job], []);
     StreamLogs := λ _ _ _, stream;
     json_Marshal := marshal;
     json_MarshalEvent := λ ev, inl (encodeEvent ev);
     gzip_bytes := λ _ payload, "gz(" +:+ payload +:+ ")";
     stdcopy_StdCopy := λ x, x;
     fmt_errs := λ _, "[]";
     fmt_event := λ ev, EventName ev;
     IsDebugEnabled := false |}.

Definition ok (e : LogEvent) : string + GoError := inl (encode e).
Definition failing (e : LogEvent) : string + GoError := inr unsupported.

(** A request on [/h1/.../c1] with the given query and headers. *)
Definition request (id : string) (query : list (string * list string))
    (hdr : list (string * string)) : Request :=
  mkRequest (list_to_map [("host", "h1"); ("id", id)])
            (list_to_map query) (list_to_map hdr).
End Sample.

(** ** Further observations *)

(** The headers streamLogsForContainers sets on an event stream. *)
Definition sse_headers : gmap string (list string) :=
  <["X-Accel-Buffering" := ["no"]]>
    (<["Connection" := ["keep-alive"]]>
       (<["Cache-Control" := ["no-transform"; "no-cache"]]>
          (<["Content-Type" := ["text/event-stream"]]> ∅))).

(** The response of an event stream: the stream's headers are set, and
    either nothing has been sent yet or status 200 has been sent with
    those headers. *)
Definition sse_response (s : St) : Prop :=
  header (w s) = sse_headers ∧
  ((wroteHeader (w s) = None ∧ written (w s) = []) ∨
   wroteHeader (w s) = Some (200, sse_headers)).

(** Nothing written is waiting for a flush. *)
Definition flushed (s : St) : Prop :=
  written (w s) = [] ∨ ∃ ops, written (w s) = (ops ++ [Flush])%list.

(** The session a streaming handler has set up, and the session a run
    ends in, when there is one (a session that has exited otherwise). *)
Definition no_session : Session := mkSession (initSt false) [] [] Exited.

Definition session_of (o : Outcome + Session) : Session :=
  match o with
  | inr x => x
  | inl _ => no_session
  end.

Definition end_of (o : option Session) : Session := default no_session o.

(** The frame the loop writes for a log event, whether the event
    encodes or not. *)
Definition log_frame (env : Env) (e : LogEvent) : list Op :=
  (match json_Marshal env e with
   | inl buf => [Write ("data: " +:+ buf +:+ LF)]
   | inr _ => []
   end ++ id_line (Timestamp e) ++ [Write LF; Flush])%list.

(** The file name of a download. *)
Definition download_file (env : Env) (c : Container) : string :=
  Name c +:+ "-" +:+ time_Format env (time_Now env) "2006-01-02T15-04-05" +:+ ".log".

(** The sample deployment with another raw log source, and with another
    encoder of lifecycle events. *)
Definition with_RawLogs
    (raw : Container → Time → Time → StdType → string + GoError) (env : Env) : Env :=
  {| hostKey := hostKey env;
     time_Parse := time_Parse env;
     time_Now := time_Now env;
     time_Format := time_Format env;
     FindContainer := FindContainer env;
     RawLogs := raw;
     LogsBetweenDates := LogsBetweenDates env;
     ListAllContainersFiltered := ListAllContainersFiltered env;
     StreamLogs := StreamLogs env;
     json_Marshal := json_Marshal env;
     json_MarshalEvent := json_MarshalEvent env;
     gzip_bytes := gzip_bytes env;
     stdcopy_StdCopy := stdcopy_StdCopy env;
     fmt_errs := fmt_errs env;
     fmt_event := fmt_event env;
     IsDebugEnabled := IsDebugEnabled env |}.

Definition with_MarshalEvent
    (marshal : ContainerEvent → string + GoError) (env : Env) : Env :=
  {| hostKey := hostKey env;
     time_Parse := time_Parse env;
     time_Now := time_Now env;
     time_Format := time_Format env;
     FindContainer := FindContainer env;
     RawLogs := RawLogs env;
     LogsBetweenDates := LogsBetweenDates env;
     ListAllContainersFiltered := ListAllContainersFiltered env;
     StreamLogs := StreamLogs env;
     json_Marshal := json_Marshal env;
     json_MarshalEvent := marshal;
     gzip_bytes := gzip_bytes env;
     stdcopy_StdCopy := stdcopy_StdCopy env;
     fmt_errs := fmt_errs env;
     fmt_event := fmt_event env;
     IsDebugEnabled := IsDebugEnabled env |}.

(** * Properties *)

(** ** Stream-type selection *)

Lemma stdTypes_of_zero (r : Request) :
  stdTypes_of r = 0 ↔ Query_Has r "stdout" = false ∧ Query_Has r "stderr" = false.
Proof.
  unfold stdTypes_of.
  destruct (Query_Has r "stdout"), (Query_Has r "stderr"); cbn; split;
    try discriminate; intuition discriminate.
Qed.

(** ** The ring buffer keeps the last items *)

Section RingBufferFacts.
Context {T : Type}.
Implicit Types (xs : list T) (b : RingBuffer.t T).

Lemma lastn_length (n : nat) xs : length (lastn n xs) = (length xs `min` n)%nat.
Proof. unfold lastn. rewrite length_drop. lia. Qed.

Lemma lastn_all (n : nat) xs : (length xs ≤ n)%nat → lastn n xs = xs.
Proof.
  intros H. unfold lastn. replace (length xs - n)%nat with 0%nat by lia. done.
Qed.

Lemma elem_of_lastn (n : nat) xs (x : T) : x ∈ lastn n xs → x ∈ xs.
Proof.
  unfold lastn. intros [i Hi]%list_elem_of_lookup_1.
  rewrite lookup_drop in Hi. by eapply list_elem_of_lookup_2.
Qed.

Lemma lastn_snoc (n : nat) xs (x : T) :
  (0 < n)%nat →
  lastn n (xs ++ [x]) =
  if decide (length (lastn n xs) < n)%nat
  then (lastn n xs ++ [x])%list
  else (drop 1 (lastn n xs) ++ [x])%list.
Proof.
  intros Hn. rewrite lastn_length. unfold lastn.
  rewrite length_app. cbn [length].
  case_decide as Hlt.
  - replace (length xs + 1 - n)%nat with 0%nat by lia.
    replace (length xs - n)%nat with 0%nat by lia. done.
  - rewrite drop_drop.
    replace (length xs + 1 - n)%nat with (length xs - n + 1)%nat by lia.
    rewrite drop_app_le by lia. done.
Qed.

Lemma Push_Size (x : T) b : RingBuffer.Size (RingBuffer.Push x b) = RingBuffer.Size b.
Proof. unfold RingBuffer.Push. by case_decide. Qed.

Lemma pushAll_snoc xs (x : T) b :
  RingBuffer.pushAll (xs ++ [x]) b = RingBuffer.Push x (RingBuffer.pushAll xs b).
Proof. unfold RingBuffer.pushAll. by rewrite foldl_app. Qed.

(** Testable property 1 of the specification. *)
Lemma pushAll_Data (C : nat) xs :
  (0 < C)%nat →
  RingBuffer.Size (RingBuffer.pushAll xs (RingBuffer.NewRingBuffer C)) = C ∧
  RingBuffer.Data (RingBuffer.pushAll xs (RingBuffer.NewRingBuffer C)) = lastn C xs.
Proof.
  intros HC. induction xs as [|x xs [IHs IHd]] using rev_ind; [done|].
  rewrite pushAll_snoc, Push_Size. split; [done|].
  rewrite lastn_snoc by done. rewrite <- IHd.
  unfold RingBuffer.Data in *. unfold RingBuffer.Push. rewrite IHs.
  by case_decide.
Qed.
End RingBufferFacts.

(** Testable property 7 of the specification. *)
Example ring_buffer_capacity_3 :
  RingBuffer.Data
    (RingBuffer.pushAll [1; 2; 3; 4] (RingBuffer.NewRingBuffer 3)) = [2; 3; 4].
Proof. reflexivity. Qed.

(** ** The export loop *)

Lemma sent_ok_status (s : St) : sent_ok s → status_of (Returned s) = Some 200.
Proof. intros [H|[h H]]; cbn; by rewrite H. Qed.

Lemma w_Write_sent_ok (txt : string) (s : St) :
  sent_ok s → sent_ok (onW (w_Write txt) s).
Proof.
  intros [H|[h H]]; right; cbn; unfold WriteHeader; rewrite H; cbn; eauto.
Qed.

Lemma w_Write_written (txt : string) (wr : ResponseWriter) :
  written (w_Write txt wr) = (written wr ++ [Write txt])%list.
Proof. unfold w_Write, WriteHeader. by destruct (wroteHeader wr). Qed.

Lemma w_Flush_written (wr : ResponseWriter) :
  written (w_Flush wr) = (written wr ++ [Flush])%list.
Proof. unfold w_Flush, WriteHeader. by destruct (wroteHeader wr). Qed.

Section ExportLoop.
Variable env : Env.

Lemma encode_all (evs : list LogEvent) (s : St) :
  sent_ok s →
  written (w (foldl (encode_one env) s evs)) =
    (written (w s) ++ omap (line_of env) evs)%list ∧
  logged (foldl (encode_one env) s evs) =
    (logged s ++ omap (encode_error_of env) evs)%list ∧
  calls (foldl (encode_one env) s evs) = calls s ∧
  header (w (foldl (encode_one env) s evs)) = header (w s) ∧
  sent_ok (foldl (encode_one env) s evs).
Proof.
  revert s. induction evs as [|e evs IH]; intros s Hok.
  - cbn. by rewrite !app_nil_r.
  - cbn [foldl omap list_omap].
    destruct (IH (encode_one env s e)) as (Hw & Hl & Hc & Hh & Hs).
    { unfold encode_one. destruct (json_Marshal env e); [|done].
      by apply w_Write_sent_ok. }
    split_and!; [| | | |done].
    all: revert Hw Hl Hc Hh; clear; intros Hw Hl Hc Hh.
    all: rewrite ?Hw, ?Hl, ?Hc, ?Hh.
    all: unfold encode_one, line_of, encode_error_of.
    all: destruct (json_Marshal env e) as [buf|err];
      cbn [onW logf w logged calls]; try done.
    + by rewrite w_Write_written, <- app_assoc.
    + by rewrite <- app_assoc.
    + cbn. unfold WriteHeader. by destruct (wroteHeader (w s)).
Qed.

Variable enc : LogEvent → string.

Lemma all_encode (evs : list LogEvent) :
  (∀ e, e ∈ evs → json_Marshal env e = inl (enc e)) →
  omap (line_of env) evs = map (json_line enc) evs ∧
  omap (encode_error_of env) evs = [].
Proof.
  induction evs as [|e evs IH]; intros Henc; [done|].
  cbn. unfold line_of at 1, encode_error_of at 1.
  rewrite Henc by left. destruct IH as [-> ->]; [|done].
  intros e' He'. apply Henc. by right.
Qed.
End ExportLoop.

(** The range export on a request that passes the checks, when the log
    source hands back a channel that is closed after [evs]. *)
Lemma fetch_closed (env : Env) (r : Request) (flusher : bool)
    (svc : Container) (evs : list LogEvent) (oerr : option GoError) :
  stdTypes_of r ≠ 0 →
  FindContainer env (hostKey env r) (chi_URLParam r "id") = inl svc →
  LogsBetweenDates env svc
    (parse_ignoring_error env (Query_Get r "from"))
    (parse_ignoring_error env (Query_Get r "to"))
    (stdTypes_of r) = (ClosedAfter evs, oerr) →
  ∃ s, fetchLogsBetweenDates env r (initSt flusher) = Returned s ∧
       written (w s) = omap (line_of env) (lastn 500 evs) ∧
       logged s =
         (match oerr with
          | Some err =>
              [mkLog ErrorLevel ("error while streaming logs " +:+ errMsg err) None]
          | None => []
          end ++ omap (encode_error_of env) (lastn 500 evs))%list ∧
       status_of (Returned s) = Some 200 ∧
       header (w s) !! "Content-Type" = Some ["application/x-jsonl; charset=UTF-8"] ∧
       calls s =
         [CallFindContainer (hostKey env r) (chi_URLParam r "id");
          CallLogsBetweenDates svc
            (parse_ignoring_error env (Query_Get r "from"))
            (parse_ignoring_error env (Query_Get r "to")) (stdTypes_of r)].
Proof.
  intros Hstd Hfind Hlogs.
  unfold fetchLogsBetweenDates.
  destruct (stdTypes_of r =? 0) eqn:E; [apply Z.eqb_eq in E; done|].
  rewrite Hfind, Hlogs.
  destruct (pushAll_Data (T := LogEvent) 500 evs) as [_ ->]; [lia|].
  eexists. split; [reflexivity|].
  edestruct (encode_all env (lastn 500 evs)) as (Hw & Hl & Hc & Hh & Hs);
    [|rewrite Hw, Hl, Hc, Hh; split_and!;
      [by destruct oerr|by destruct oerr| by apply sent_ok_status
      |by destruct oerr|by destruct oerr]].
  left. by destruct oerr.
Qed.


(** ** C1: the range export *)

(** C1.  A range export whose range matches the events [evs] (the
    request selects a stream type, names a known container, and every
    event encodes) answers with status 200 and one JSON line per event
    for exactly the last [min (length evs) 500] events, in the order
    they were received, all of them when there are at most 500; nothing
    is logged and no error is reported for the dropped ones. *)
Theorem range_export_keeps_last_500
    (env : Env) (enc : LogEvent → string) (r : Request) (flusher : bool)
    (svc : Container) (evs : list LogEvent) :
  stdTypes_of r ≠ 0 →
  FindContainer env (hostKey env r) (chi_URLParam r "id") = inl svc →
  LogsBetweenDates env svc
    (parse_ignoring_error env (Query_Get r "from"))
    (parse_ignoring_error env (Query_Get r "to"))
    (stdTypes_of r) = (ClosedAfter evs, None) →
  (∀ e, e ∈ evs → json_Marshal env e = inl (enc e)) →
  ∃ s, fetchLogsBetweenDates env r (initSt flusher) = Returned s ∧
       written (w s) = map (json_line enc) (lastn 500 evs) ∧
       length (written (w s)) = (length evs `min` 500)%nat ∧
       ((length evs ≤ 500)%nat → written (w s) = map (json_line enc) evs) ∧
       status_of (Returned s) = Some 200 ∧
       logged s = [].
Proof.
  intros Hstd Hfind Hlogs Henc.
  destruct (fetch_closed env r flusher svc evs None) as (s & Hs & Hw & Hl & Hst & _);
    [done..|].
  destruct (all_encode env enc (lastn 500 evs)) as [Hlines Herrs].
  { intros e He. by apply Henc, (elem_of_lastn 500). }
  rewrite Hlines in Hw. rewrite Herrs in Hl.
  exists s. rewrite Hw. split_and!; try done.
  - by rewrite length_map, lastn_length.
  - intros Hle. by rewrite lastn_all.
Qed.

Lemma range_export_keeps_last_500_witness :
  let env := Sample.env (ClosedAfter (Sample.lines 600), None) ([], None) Sample.ok in
  let r := Sample.request "c1"
             [("from", ["2024-01-01T00:00:00Z"]); ("to", ["2024-01-02T00:00:00Z"]);
              ("stdout", [""])] [] in
  ∃ s, fetchLogsBetweenDates env r (initSt false) = Returned s ∧
       written (w s) = map (json_line Sample.encode) (lastn 500 (Sample.lines 600)) ∧
       length (written (w s)) = (length (Sample.lines 600) `min` 500)%nat ∧
       ((length (Sample.lines 600) ≤ 500)%nat →
        written (w s) = map (json_line Sample.encode) (Sample.lines 600)) ∧
       status_of (Returned s) = Some 200 ∧
       logged s = [].
Proof.
  intros env r.
  apply (range_export_keeps_last_500 env Sample.encode r false Sample.web).
  - vm_compute. discriminate.
  - reflexivity.
  - reflexivity.
  - intros e _. reflexivity.
Defined.

(** Testable property 8 of the specification: 600 matching events. *)
Example range_export_600 :
  let env := Sample.env (ClosedAfter (Sample.lines 600), None) ([], None) Sample.ok in
  let r := Sample.request "c1"
             [("from", ["2024-01-01T00:00:00Z"]); ("to", ["2024-01-02T00:00:00Z"]);
              ("stdout", [""])] [] in
  written (w (final (fetchLogsBetweenDates env r (initSt false)))) =
  map (λ n, Write (Sample.encode (Sample.line n) +:+ LF)) (seq 101 500).
Proof. vm_compute. reflexivity. Qed.

(** ** C2: an empty stream-type selection *)

(** The range export checks the selection before it looks anything up. *)
Lemma fetch_refuses_empty_selection (env : Env) (r : Request) (flusher : bool) :
  stdTypes_of r = 0 →
  refused_before_work "stdout or stderr is required"
    (fetchLogsBetweenDates env r (initSt flusher)).
Proof.
  intros H. unfold fetchLogsBetweenDates. rewrite H. cbn.
  eexists. split; [reflexivity|]. split_and!; done.
Qed.

(** So does every streaming handler: no listing, no subscription, no
    producer. *)
Lemma stream_refuses_empty_selection
    (env : Env) (r : Request) (filter : ContainerFilter) (flusher : bool) :
  stdTypes_of r = 0 →
  ∃ o, streamLogsForContainers env r filter (initSt flusher) = inl o ∧
       refused_before_work "stdout or stderr is required" o.
Proof.
  intros H. unfold streamLogsForContainers. rewrite H. cbn.
  eexists. split; [reflexivity|]. eexists. split; [reflexivity|].
  split_and!; done.
Qed.

Lemma merged_refuses_empty_selection (env : Env) (r : Request) (flusher : bool) :
  stdTypes_of r = 0 →
  ∃ o msg, streamLogsMerged env r (initSt flusher) = inl o ∧
           refused_before_work msg o.
Proof.
  intros H. unfold streamLogsMerged.
  destruct (Query_Has r "id"); cbn.
  - destruct (stream_refuses_empty_selection env r (filter_id_set env r) flusher H)
      as (o & Ho & Hr). eauto.
  - eexists _, _. split; [reflexivity|]. eexists. split; [reflexivity|].
    split_and!; done.
Qed.

(** The download looks the container up, and sets its headers, before
    it checks the selection. *)
Lemma download_checks_selection_last (env : Env) (r : Request) (flusher : bool)
    (svc : Container) :
  stdTypes_of r = 0 →
  FindContainer env (hostKey env r) (chi_URLParam r "id") = inl svc →
  ∃ s, downloadLogs env r (initSt flusher) = Returned s ∧
       status_of (Returned s) = Some StatusBadRequest ∧
       calls s = [CallFindContainer (hostKey env r) (chi_URLParam r "id")] ∧
       is_Some (sent_header s "Content-Disposition").
Proof.
  intros H Hfind. unfold downloadLogs. rewrite Hfind, H.
  eexists. split; [reflexivity|].
  destruct (strings_Contains _ _); cbn; split_and!; try done.
  all: unfold sent_header; cbn; eexists; reflexivity.
Qed.

(** C2.  A download request for the container [c1] of host [h1] that
    selects neither stdout nor stderr and accepts gzip: the handler
    answers 400 with the validation message, but only after it has
    looked the container up, and the response carries the download's
    Content-Disposition and Content-Encoding headers. *)
Theorem download_validates_after_lookup :
  let env := Sample.env (ClosedAfter [], None) ([], None) Sample.ok in
  let r := Sample.request "c1" [] [("Accept-Encoding", "gzip, deflate")] in
  let o := downloadLogs env r (initSt false) in
  stdTypes_of r = 0 ∧
  status_of o = Some StatusBadRequest ∧
  written (w (final o)) = [Write ("stdout or stderr is required" +:+ LF)] ∧
  calls (final o) = [CallFindContainer "h1" "c1"] ∧
  sent_header (final o) "Content-Disposition" =
    Some ["attachment; filename=web-2024-01-02T00-00-00.log"] ∧
  sent_header (final o) "Content-Encoding" = Some ["gzip"] ∧
  ¬ refused_before_work "stdout or stderr is required" o.
Proof.
  cbv zeta. split_and!; try reflexivity.
  intros (s & Hs & _ & _ & Hcalls & _).
  injection Hs as <-. vm_compute in Hcalls. discriminate.
Qed.

(** With an unknown container the same request is answered with the
    lookup's error, not with the validation error. *)
Example download_unknown_container_without_selection :
  let env := Sample.env (ClosedAfter [], None) ([], None) Sample.ok in
  let r := Sample.request "zz" [] [] in
  let o := downloadLogs env r (initSt false) in
  stdTypes_of r = 0 ∧
  written (w (final o)) = [Write ("container not found" +:+ LF)].
Proof. split; reflexivity. Qed.

(** ** C3: the bounds of the range *)

(** C3, as the code has it.  The range export never rejects a request
    for its [from] or [to]: on a request that selects a stream type and
    names a known container it goes on to the lookup and the fetch, with
    the zero time for every bound that does not parse, and answers 200
    once the channel it was given is closed. *)
Theorem range_export_unparsed_bound_is_zero
    (env : Env) (r : Request) (flusher : bool) (svc : Container) :
  stdTypes_of r ≠ 0 →
  FindContainer env (hostKey env r) (chi_URLParam r "id") = inl svc →
  ∃ from to,
    calls (final (fetchLogsBetweenDates env r (initSt flusher))) =
      [CallFindContainer (hostKey env r) (chi_URLParam r "id");
       CallLogsBetweenDates svc from to (stdTypes_of r)] ∧
    (∀ err, time_Parse env RFC3339Nano (Query_Get r "from") = inr err →
            from = zeroTime) ∧
    (∀ err, time_Parse env RFC3339Nano (Query_Get r "to") = inr err →
            to = zeroTime) ∧
    (∀ evs oerr,
        LogsBetweenDates env svc from to (stdTypes_of r) = (ClosedAfter evs, oerr) →
        status_of (fetchLogsBetweenDates env r (initSt flusher)) = Some 200).
Proof.
  intros Hstd Hfind.
  exists (parse_ignoring_error env (Query_Get r "from")),
         (parse_ignoring_error env (Query_Get r "to")).
  split_and!.
  - unfold fetchLogsBetweenDates.
    destruct (stdTypes_of r =? 0) eqn:E; [apply Z.eqb_eq in E; done|].
    rewrite Hfind.
    destruct (LogsBetweenDates _ _ _ _ _) as [[| evs | evs] oerr];
      cbn [final]; try by destruct oerr.
    match goal with
    | |- calls (foldl _ ?s0 ?l) = _ =>
        destruct (encode_all env l s0) as (_ & _ & -> & _); [left; by destruct oerr|]
    end.
    by destruct oerr.
  - intros err H. unfold parse_ignoring_error. by rewrite H.
  - intros err H. unfold parse_ignoring_error. by rewrite H.
  - intros evs oerr Hlogs.
    destruct (fetch_closed env r flusher svc evs oerr) as (s & -> & _ & _ & Hst & _);
      done.
Qed.

Lemma range_export_unparsed_bound_is_zero_witness :
  let env := Sample.env (ClosedAfter (Sample.lines 2), None) ([], None) Sample.ok in
  let r := Sample.request "c1" [("to", ["yesterday"]); ("stdout", [""])] [] in
  ∃ from to,
    calls (final (fetchLogsBetweenDates env r (initSt false))) =
      [CallFindContainer (hostKey env r) (chi_URLParam r "id");
       CallLogsBetweenDates Sample.web from to (stdTypes_of r)] ∧
    (∀ err, time_Parse env RFC3339Nano (Query_Get r "from") = inr err →
            from = zeroTime) ∧
    (∀ err, time_Parse env RFC3339Nano (Query_Get r "to") = inr err →
            to = zeroTime) ∧
    (∀ evs oerr,
        LogsBetweenDates env Sample.web from to (stdTypes_of r) = (ClosedAfter evs, oerr) →
        status_of (fetchLogsBetweenDates env r (initSt false)) = Some 200).
Proof.
  intros env r.
  apply (range_export_unparsed_bound_is_zero env r false Sample.web).
  - vm_compute. discriminate.
  - reflexivity.
Defined.

(** C3 fails on the code: a request without [from] and with a [to] that
    is no timestamp is looked up, fetched with the zero time for both
    bounds, and answered 200 with the events. *)
Lemma range_export_accepts_bad_bounds :
  let env := Sample.env (ClosedAfter (Sample.lines 2), None) ([], None) Sample.ok in
  let r := Sample.request "c1" [("to", ["yesterday"]); ("stdout", [""])] [] in
  let o := fetchLogsBetweenDates env r (initSt false) in
  Query r !! "from" = None ∧
  time_Parse env RFC3339Nano (Query_Get r "from") = inr Sample.badTime ∧
  time_Parse env RFC3339Nano (Query_Get r "to") = inr Sample.badTime ∧
  status_of o = Some 200 ∧
  calls (final o) =
    [CallFindContainer "h1" "c1";
     CallLogsBetweenDates Sample.web zeroTime zeroTime STDOUT] ∧
  written (w (final o)) =
    [Write (Sample.encode (Sample.line 1) +:+ LF);
     Write (Sample.encode (Sample.line 2) +:+ LF)] ∧
  ¬ client_error_without_work o.
Proof.
  cbv zeta. split_and!; try reflexivity.
  intros (code & Hst & Hcode & _). vm_compute in Hst.
  injection Hst as <-. lia.
Qed.

(** ** C10: an error of the historical fetch *)

(** When the fetch returns an error together with a channel that is
    closed after [evs], the handler logs the error and reports nothing
    to the client: it answers 200 with the content type of the export,
    and the body holds the JSON lines of the last 500 of the events
    received. *)
Theorem range_export_fetch_error_only_logged
    (env : Env) (r : Request) (flusher : bool)
    (svc : Container) (evs : list LogEvent) (err : GoError) :
  stdTypes_of r ≠ 0 →
  FindContainer env (hostKey env r) (chi_URLParam r "id") = inl svc →
  LogsBetweenDates env svc
    (parse_ignoring_error env (Query_Get r "from"))
    (parse_ignoring_error env (Query_Get r "to"))
    (stdTypes_of r) = (ClosedAfter evs, Some err) →
  ∃ s, fetchLogsBetweenDates env r (initSt flusher) = Returned s ∧
       status_of (Returned s) = Some 200 ∧
       header (w s) !! "Content-Type" = Some ["application/x-jsonl; charset=UTF-8"] ∧
       written (w s) = omap (line_of env) (lastn 500 evs) ∧
       logged s =
         mkLog ErrorLevel ("error while streaming logs " +:+ errMsg err) None
           :: omap (encode_error_of env) (lastn 500 evs).
Proof.
  intros Hstd Hfind Hlogs.
  destruct (fetch_closed env r flusher svc evs (Some err))
    as (s & Hs & Hw & Hl & Hst & Hh & _); [done..|].
  exists s. by split_and!.
Qed.

Lemma range_export_fetch_error_only_logged_witness :
  let env := Sample.env (ClosedAfter (Sample.lines 3), Some Sample.daemonDown)
               ([], None) Sample.ok in
  let r := Sample.request "c1" [("stderr", [""])] [] in
  ∃ s, fetchLogsBetweenDates env r (initSt false) = Returned s ∧
       status_of (Returned s) = Some 200 ∧
       header (w s) !! "Content-Type" = Some ["application/x-jsonl; charset=UTF-8"] ∧
       written (w s) = omap (line_of env) (lastn 500 (Sample.lines 3)) ∧
       logged s =
         mkLog ErrorLevel
           ("error while streaming logs " +:+ errMsg Sample.daemonDown) None
           :: omap (encode_error_of env) (lastn 500 (Sample.lines 3)).
Proof.
  intros env r.
  apply (range_export_fetch_error_only_logged env r false Sample.web).
  - vm_compute. discriminate.
  - reflexivity.
  - reflexivity.
Defined.

(** C10.  A range export whose fetch returns its error with a nil
    channel: the handler logs the error and, having no [return] after
    the log, goes on to range over the nil channel, where it blocks
    forever; it never returns, and no status or body is sent, so the
    success response of the claim is not produced. *)
Lemma range_export_blocks_on_nil_channel :
  let env := Sample.env (NilChan, Some Sample.daemonDown) ([], None) Sample.ok in
  let r := Sample.request "c1" [("stdout", [""])] [] in
  let o := fetchLogsBetweenDates env r (initSt false) in
  (∃ s, o = Blocked s) ∧
  logged (final o) =
    [mkLog ErrorLevel "error while streaming logs cannot connect to daemon" None] ∧
  wroteHeader (w (final o)) = None ∧
  written (w (final o)) = [] ∧
  ¬ ∃ s, o = Returned s ∧ status_of (Returned s) = Some 200.
Proof.
  cbv zeta. split_and!; try reflexivity.
  - eexists. reflexivity.
  - intros (s & Hs & _). vm_compute in Hs. discriminate.
Qed.

(** ** C8: the filters and the running state *)

Lemma ids_lookup (l : list string) (m : gmap string bool) (k : string) :
  foldl (λ ids id, <[id := true]> ids) m l !! k =
  if decide (k ∈ l) then Some true else m !! k.
Proof.
  revert m. induction l as [|x l IH]; intros m; cbn [foldl].
  - case_decide as H; [by apply elem_of_nil in H|done].
  - rewrite IH. destruct (decide (k ∈ l)) as [Hin|Hnin].
    + rewrite decide_True; [done|by right].
    + destruct (decide (k = x)) as [->|Hne].
      * rewrite lookup_insert_eq, decide_True; [done|by left].
      * rewrite lookup_insert_ne by done.
        rewrite decide_False; [done|]. by intros [?|?]%elem_of_cons.
Qed.

(** C8, as the code has it.  The service, group and stack filters accept
    a container only if its state is running and their own condition
    holds; the single-id filter and the id-set filter accept on the id
    and the host alone, whatever the state. *)
Theorem filters_and_running_state (env : Env) (r : Request) (c : Container) :
  (filter_service r c = true ↔
     State c = "running" ∧
     label c "com.docker.swarm.service.name" = chi_URLParam r "service") ∧
  (filter_group r c = true ↔
     State c = "running" ∧ Group c = chi_URLParam r "group") ∧
  (filter_stack r c = true ↔
     State c = "running" ∧
     label c "com.docker.stack.namespace" = chi_URLParam r "stack") ∧
  (filter_single_id env r c = true ↔
     ID c = chi_URLParam r "id" ∧ Host c = hostKey env r) ∧
  (filter_id_set env r c = true ↔
     ID c ∈ Query_values r "id" ∧ Host c = hostKey env r).
Proof.
  unfold filter_service, filter_group, filter_stack, filter_single_id, filter_id_set.
  rewrite !andb_true_iff, !bool_decide_eq_true. split_and!; try done.
  unfold ids_of. rewrite ids_lookup, lookup_empty.
  case_decide; cbn; intuition discriminate.
Qed.

(** C8 fails on the code for the id-set filter: it accepts the exited
    container [c2]. *)
Lemma id_set_filter_accepts_exited_container :
  let env := Sample.env (ClosedAfter [], None) ([], None) Sample.ok in
  let r := mkRequest (list_to_map [("host", "h1")])
                     (list_to_map [("id", ["c1"; "c2"]); ("stdout", [""])]) ∅ in
  State Sample.job = "exited" ∧
  filter_id_set env r Sample.job = true ∧
  ¬ (filter_id_set env r Sample.job = true → State Sample.job = "running").
Proof.
  cbv zeta. split_and!; try reflexivity.
  intros H. specialize (H eq_refl). discriminate.
Qed.

(** ** C4 and C5: the frame of a log event *)

Lemma id_line_iff (ts : Z) :
  (0 < ts → id_line ts = [Write ("id: " +:+ pretty ts +:+ LF)]) ∧
  (¬ 0 < ts → id_line ts = []).
Proof. unfold id_line. by case_bool_decide. Qed.

Lemma on_log_written (env : Env) (e : LogEvent) (s : St) :
  written (w (on_log env e s)) =
    (written (w s) ++
     match json_Marshal env e with
     | inl buf => [Write ("data: " +:+ buf +:+ LF)]
     | inr _ => []
     end ++ id_line (Timestamp e) ++ [Write LF; Flush])%list.
Proof.
  unfold on_log, id_line.
  destruct (json_Marshal env e) as [buf|err];
    destruct (Z.ltb_spec 0 (Timestamp e)); case_bool_decide; try lia;
    cbn [onW logf w]; rewrite ?w_Flush_written, ?w_Write_written;
    cbn [w]; rewrite ?w_Write_written; cbn [w];
    by rewrite <- ?app_assoc.
Qed.

Lemma on_log_logged (env : Env) (e : LogEvent) (s : St) :
  logged (on_log env e s) =
    (logged s ++
     match json_Marshal env e with
     | inl _ => []
     | inr err =>
         [mkLog ErrorLevel ("json encoding error while streaming " +:+ errMsg err) None]
     end)%list.
Proof.
  unfold on_log.
  destruct (json_Marshal env e) as [buf|err]; destruct (0 <? Timestamp e);
    cbn; by rewrite ?app_nil_r.
Qed.

(** C4.  When the merge loop takes a log event from a producer and the
    event encodes to [buf], it appends to the transport the line
    [data: buf], then the line [id: timestamp] exactly when the
    timestamp is positive, then a blank line, and then flushes; nothing
    is logged and the loop goes on. *)
Theorem log_event_frame
    (env : Env) (filter : ContainerFilter) (std : StdType) (x : Session)
    (i : nat) (e : LogEvent) (rest : list ProducerAct) (buf : string) :
  loop x = Looping →
  producers x !! i = Some (PSendLog e :: rest) →
  json_Marshal env e = inl buf →
  ∃ x', step env filter std x (ChLog i) = Some x' ∧
        written (w (st x')) =
          (written (w (st x)) ++
           [Write ("data: " +:+ buf +:+ LF)] ++
           (if bool_decide (0 < Timestamp e)
            then [Write ("id: " +:+ pretty (Timestamp e) +:+ LF)] else []) ++
           [Write LF; Flush])%list ∧
        logged (st x') = logged (st x) ∧
        loop x' = Looping.
Proof.
  intros Hloop Hprod Hjson. unfold step, is_looping. rewrite Hprod, Hloop.
  eexists. split; [reflexivity|]. cbn [st loop].
  rewrite on_log_written, on_log_logged, Hjson, app_nil_r. done.
Qed.

Lemma log_event_frame_witness :
  let env := Sample.env (ClosedAfter [], None) ([], None) Sample.ok in
  let x := mkSession (initSt true) [] [[PSendLog (Sample.line 7)]] Looping in
  ∃ x', step env (λ _, true) STDOUT x (ChLog 0) = Some x' ∧
        written (w (st x')) =
          (written (w (st x)) ++
           [Write ("data: " +:+ Sample.encode (Sample.line 7) +:+ LF)] ++
           (if bool_decide (0 < Timestamp (Sample.line 7))
            then [Write ("id: " +:+ pretty (Timestamp (Sample.line 7)) +:+ LF)]
            else []) ++
           [Write LF; Flush])%list ∧
        logged (st x') = logged (st x) ∧
        loop x' = Looping.
Proof.
  intros env x.
  apply (log_event_frame env (λ _, true) STDOUT x 0%nat (Sample.line 7) []);
    reflexivity.
Defined.

(** A frame on the wire, for a positive and for an unknown timestamp. *)
Example log_event_frame_7 :
  let env := Sample.env (ClosedAfter [], None) ([], None) Sample.ok in
  written (w (on_log env (Sample.line 7) (initSt true))) =
    [Write ("data: " +:+ Sample.encode (Sample.line 7) +:+ LF);
     Write ("id: 7" +:+ LF); Write LF; Flush] ∧
  written (w (on_log env (Sample.line 0) (initSt true))) =
    [Write ("data: " +:+ Sample.encode (Sample.line 0) +:+ LF); Write LF; Flush].
Proof. split; reflexivity. Qed.

(** When the encoding of a log event fails, the loop logs the error and
    still writes the rest of the frame. *)
Lemma log_event_frame_on_encoding_error
    (env : Env) (e : LogEvent) (err : GoError) (s : St) :
  json_Marshal env e = inr err →
  written (w (on_log env e s)) =
    (written (w s) ++ id_line (Timestamp e) ++ [Write LF; Flush])%list.
Proof. intros H. by rewrite on_log_written, H. Qed.

(** The lifecycle case of the same loop skips its whole frame. *)
Lemma lifecycle_frame_on_encoding_error
    (env : Env) (ev : ContainerEvent) (err : GoError) (s : St) :
  json_MarshalEvent env ev = inr err →
  w (on_event env ev s) = w s.
Proof. intros H. unfold on_event. by rewrite H. Qed.

(** C5.  A log event with timestamp 7 whose encoding fails: the loop
    logs the error and goes on, but the [id:] line and the blank line of
    the frame still reach the transport and are flushed. *)
Theorem failed_log_frame_is_not_skipped :
  let env := Sample.env (ClosedAfter [], None) ([], None) Sample.failing in
  let x := mkSession (initSt true) [] [[PSendLog (Sample.line 7)]] Looping in
  ∃ x', step env (λ _, true) STDOUT x (ChLog 0) = Some x' ∧
        json_Marshal env (Sample.line 7) = inr Sample.unsupported ∧
        logged (st x') =
          [mkLog ErrorLevel
             "json encoding error while streaming json: unsupported value" None] ∧
        written (w (st x')) = [Write ("id: 7" +:+ LF); Write LF; Flush] ∧
        written (w (st x')) ≠ written (w (st x)) ∧
        loop x' = Looping.
Proof.
  cbv zeta. eexists. split; [reflexivity|]. split_and!; try reflexivity.
  vm_compute. discriminate.
Qed.

(** ** C6 and C7: how a producer ends *)

Section Producer.
Variables (env : Env) (std : StdType) (c svc : Container).
Hypothesis Hfind : FindContainer env (Host c) (ID c) = inl svc.

Lemma producer_prefix_sends_no_event (sent : list LogEvent) (ev : ContainerEvent) :
  PSendEvent ev ∉ producer_prefix std c svc sent.
Proof.
  unfold producer_prefix. rewrite !not_elem_of_cons. split_and!; try done.
  by intros (e & ? & _)%list_elem_of_fmap.
Qed.


Lemma streamLogs_other_error (sent : list LogEvent) (err : GoError) :
  StreamLogs env svc (StartedAt c) std = (sent, Some err) →
  isEOF err = false →
  isCanceled err = false →
  streamLogs env std c =
    (producer_prefix std c svc sent ++
     [PLog (mkLog ErrorLevel ("unknown error while streaming " +:+ errMsg err) None)])%list.
Proof.
  intros Hs He Hc. unfold streamLogs, producer_prefix.
  by rewrite Hfind, Hs, He, Hc.
Qed.
End Producer.




(** C7.  A producer whose stream ends with an error that is neither
    end-of-stream nor a cancellation logs the error and stops: it sends
    no lifecycle event, and its last step leaves the transport, the
    lifecycle channel and the merge loop as they are. *)
Theorem producer_other_error_is_silent
    (env : Env) (filter : ContainerFilter) (std : StdType)
    (c svc : Container) (sent : list LogEvent) (err : GoError) :
  FindContainer env (Host c) (ID c) = inl svc →
  StreamLogs env svc (StartedAt c) std = (sent, Some err) →
  isEOF err = false →
  isCanceled err = false →
  let entry := mkLog ErrorLevel ("unknown error while streaming " +:+ errMsg err) None in
  streamLogs env std c = (producer_prefix std c svc sent ++ [PLog entry])%list ∧
  (∀ ev, PSendEvent ev ∉ streamLogs env std c) ∧
  (∀ x i, producers x !! i = Some [PLog entry] →
     ∃ x', step env filter std x (ChProducer i) = Some x' ∧
           w (st x') = w (st x) ∧
           events x' = events x ∧
           loop x' = loop x ∧
           logged (st x') = (logged (st x) ++ [entry])%list ∧
           producers x' !! i = Some []).
Proof.
  intros Hfind Hs He Hc entry.
  pose proof (streamLogs_other_error env std c svc Hfind sent err Hs He Hc) as Heq.
  split_and!; [done| |].
  - rewrite Heq. intros ev [Hin|Hin]%elem_of_app.
    + by apply producer_prefix_sends_no_event in Hin.
    + by apply list_elem_of_singleton in Hin.
  - intros x i Hi. unfold step. rewrite Hi.
    eexists. split; [reflexivity|]. cbn. split_and!; try done.
    apply list_lookup_insert_eq. by eapply lookup_lt_Some.
Qed.

Lemma producer_other_error_is_silent_witness :
  let env := Sample.env (ClosedAfter [], None)
               (Sample.lines 2, Some Sample.daemonDown) Sample.ok in
  let entry :=
    mkLog ErrorLevel ("unknown error while streaming " +:+ errMsg Sample.daemonDown) None in
  streamLogs env STDOUT Sample.web =
    (producer_prefix STDOUT Sample.web Sample.web (Sample.lines 2) ++ [PLog entry])%list ∧
  (∀ ev, PSendEvent ev ∉ streamLogs env STDOUT Sample.web) ∧
  (∀ x i, producers x !! i = Some [PLog entry] →
     ∃ x', step env (λ _, true) STDOUT x (ChProducer i) = Some x' ∧
           w (st x') = w (st x) ∧
           events x' = events x ∧
           loop x' = loop x ∧
           logged (st x') = (logged (st x) ++ [entry])%list ∧
           producers x' !! i = Some []).
Proof.
  intros env.
  apply (producer_other_error_is_silent env (λ _, true) STDOUT Sample.web Sample.web
           (Sample.lines 2) Sample.daemonDown); reflexivity.
Defined.

(** A producer that cannot find its container logs that and stops. *)
Lemma producer_without_container (env : Env) (std : StdType) (c : Container)
    (err : GoError) :
  FindContainer env (Host c) (ID c) = inr err →
  streamLogs env std c =
    [PCall (CallFindContainer (Host c) (ID c));
     PLog (mkLog ErrorLevel ("error while finding container " +:+ errMsg err) None)].
Proof. intros H. unfold streamLogs. by rewrite H. Qed.

(** ** C9: a container that starts during a session *)

Lemma on_event_written (env : Env) (ev : ContainerEvent) (buf : string) (s : St) :
  json_MarshalEvent env ev = inl buf →
  written (w (on_event env ev s)) = (written (w s) ++ lifecycle_frame buf)%list.
Proof.
  intros H. unfold on_event, lifecycle_frame. rewrite H. cbn [onW logf w].
  rewrite w_Flush_written, w_Write_written. cbn [w]. by rewrite <- app_assoc.
Qed.

(** C9, as the code has it.  When a container that matches the filter
    starts during a session and the lifecycle channel is empty, the
    iteration that receives the notification writes nothing: it puts
    exactly one container-started event of that container and host on
    the lifecycle channel and starts the container's producer.  The
    container-started frame is written and flushed by the iteration
    that later takes the event from the channel. *)
Theorem new_container_is_enqueued_and_spawned
    (env : Env) (filter : ContainerFilter) (std : StdType)
    (x : Session) (c : Container) :
  loop x = Looping →
  filter c = true →
  events x = [] →
  ∃ x', step env filter std x (ChNewContainer c) = Some x' ∧
        w (st x') = w (st x) ∧
        events x' = [mkContainerEvent (ID c) "container-started" (Host c)] ∧
        producers x' = (producers x ++ [streamLogs env std c])%list ∧
        calls (st x') = (calls (st x) ++ [CallGo c])%list ∧
        loop x' = Looping ∧
        ∀ buf, json_MarshalEvent env (started_event c) = inl buf →
          ∃ x'', step env filter std x' ChEvent = Some x'' ∧
                 written (w (st x'')) =
                   (written (w (st x)) ++ lifecycle_frame buf)%list ∧
                 events x'' = [] ∧
                 loop x'' = Looping.
Proof.
  intros Hloop Hf Hev. unfold step at 1, is_looping.
  rewrite Hloop, Hf, Hev. cbn.
  eexists. split; [reflexivity|]. cbn. split_and!; try done.
  intros buf Hbuf. eexists. split; [reflexivity|]. cbn [st events loop].
  rewrite (on_event_written env _ buf) by done. done.
Qed.

Lemma new_container_is_enqueued_and_spawned_witness :
  let env := Sample.env (ClosedAfter [], None) ([Sample.lateLine], None) Sample.ok in
  let r := Sample.request "c3" [("stdout", [""])] [] in
  let filter := filter_single_id env r in
  let x := mkSession (initSt true) [] [] Looping in
  ∃ x', step env filter STDOUT x (ChNewContainer Sample.late) = Some x' ∧
        w (st x') = w (st x) ∧
        events x' = [mkContainerEvent "c3" "container-started" "h1"] ∧
        producers x' = (producers x ++ [streamLogs env STDOUT Sample.late])%list ∧
        calls (st x') = (calls (st x) ++ [CallGo Sample.late])%list ∧
        loop x' = Looping ∧
        ∀ buf, json_MarshalEvent env (started_event Sample.late) = inl buf →
          ∃ x'', step env filter STDOUT x' ChEvent = Some x'' ∧
                 written (w (st x'')) =
                   (written (w (st x)) ++ lifecycle_frame buf)%list ∧
                 events x'' = [] ∧
                 loop x'' = Looping.
Proof.
  intros env r filter x.
  apply (new_container_is_enqueued_and_spawned env filter STDOUT x Sample.late);
    reflexivity.
Defined.

(** C9 fails on the code.  In a session on the container [c3], which
    starts after the session has opened: the iteration that receives the
    notification writes nothing, and the producer it starts can hand its
    first log event to the loop before the loop takes the
    container-started event from the lifecycle channel, so that the log
    frame of [c3] goes out before its container-started frame. *)
Lemma started_frame_after_log_frame :
  let env := Sample.env (ClosedAfter [], None) ([Sample.lateLine], None) Sample.ok in
  let r := Sample.request "c3" [("stdout", [""])] [] in
  let filter := filter_single_id env r in
  ∃ x0 x1 x2,
    streamContainerLogs env r (initSt true) = inr x0 ∧
    producers x0 = [] ∧
    step env filter (stdTypes_of r) x0 (ChNewContainer Sample.late) = Some x1 ∧
    written (w (st x1)) = [] ∧
    events x1 = [started_event Sample.late] ∧
    run env filter (stdTypes_of r) x1
      [ChProducer 0; ChProducer 0; ChLog 0; ChEvent] = Some x2 ∧
    written (w (st x2)) =
      [Write ("data: " +:+ Sample.encode Sample.lateLine +:+ LF);
       Write ("id: 9" +:+ LF); Write LF; Flush;
       Write ("event: container-event" +:+ LF +:+ "data: " +:+
              Sample.encodeEvent (started_event Sample.late) +:+ LF +:+ LF);
       Flush].
Proof.
  cbv zeta. eexists _, _, _.
  split; [vm_compute; reflexivity|]. split; [reflexivity|].
  split; [vm_compute; reflexivity|]. split; [reflexivity|].
  split; [reflexivity|]. split; vm_compute; reflexivity.
Qed.


(** The container [c1] stops and is started again while its stopped
    event is still on the lifecycle channel: if the loop takes the
    notification first, it blocks in its own send. *)
Example restart_can_block_the_loop :
  let env := Sample.env (ClosedAfter [], None) ([], Some Sample.EOF) Sample.ok in
  let r := Sample.request "c1" [("stdout", [""])] [] in
  let filter := filter_single_id env r in
  ∃ x0 x1,
    streamContainerLogs env r (initSt true) = inr x0 ∧
    run env filter (stdTypes_of r) x0
      [ChProducer 0; ChProducer 0; ChProducer 0; ChProducer 0;
       ChNewContainer Sample.web] = Some x1 ∧
    events x1 = [stopped_event Sample.web] ∧
    loop x1 = BlockedOnSend (started_event Sample.web) Sample.web ∧
    written (w (st x1)) = [].
Proof.
  cbv zeta. eexists _, _.
  split; [vm_compute; reflexivity|]. split; [vm_compute; reflexivity|].
  split; [reflexivity|]. split; reflexivity.
Qed.

(** ** The lifecycle channel under any schedule *)

(** The channel never holds more than its capacity, and it is full
    whenever the loop is inside its own send. *)
Definition channel_ok (x : Session) : Prop :=
  (length (events x) ≤ eventsCap)%nat ∧
  ∀ ev c, loop x = BlockedOnSend ev c → length (events x) = eventsCap.

Lemma step_channel_ok
    (env : Env) (filter : ContainerFilter) (std : StdType)
    (x x' : Session) (ch : Choice) :
  channel_ok x → step env filter std x ch = Some x' → channel_ok x'.
Proof.
  intros [Hcap Hfull]. unfold step, is_looping, channel_ok.
  destruct ch as [i| |c'| | |i].
  - destruct (producers x !! i) as [[|[] ?]|]; try done.
    destruct (loop x); try done. by intros [= <-].
  - destruct (loop x); try done. by intros [= <-].
  - destruct (loop x); try done. cbn. destruct (filter c'); try done. cbn.
    case_decide as Hroom; intros [= <-]; cbn.
    + rewrite length_app. cbn. split; [lia|done].
    + split; [done|]. intros _ _ _. lia.
  - destruct (events x) as [|e rest] eqn:E; try done.
    destruct (loop x); try done. intros [= <-]. cbn in *. split; [lia|done].
  - destruct (loop x); try done. by intros [= <-].
  - destruct (producers x !! i) as [[|[] ?]|]; try done.
    + by intros [= <-].
    + by intros [= <-].
    + case_decide as Hroom; try done. intros [= <-]. cbn.
      rewrite length_app. cbn. split; [lia|].
      intros ev c Hl. specialize (Hfull ev c Hl). lia.
Qed.

Lemma run_channel_ok
    (env : Env) (filter : ContainerFilter) (std : StdType)
    (sched : list Choice) (x x' : Session) :
  channel_ok x → run env filter std x sched = Some x' → channel_ok x'.
Proof.
  revert x. induction sched as [|ch sched IH]; intros x Hok; cbn.
  - by intros [= <-].
  - destruct (step env filter std x ch) as [x1|] eqn:E; [|done].
    apply IH. by eapply step_channel_ok.
Qed.

(** A session starts with an empty channel. *)
Lemma start_channel_ok (env : Env) (r : Request) (filter : ContainerFilter)
    (s : St) (x : Session) :
  streamLogsForContainers env r filter s = inr x → channel_ok x.
Proof.
  unfold streamLogsForContainers.
  destruct (stdTypes_of r =? 0); [done|].
  destruct (negb (isFlusher (w s))); [done|].
  destruct (ListAllContainersFiltered env filter) as [cs errs].
  intros [= <-]. split; [cbn; lia|done].
Qed.


(** ** A whole session *)

(** A session on [c1], whose stream has one line and then ends: the
    line's frame, a keepalive, the container-stopped frame, and the
    handler returns when the request is cancelled. *)
Example session_of_one_line :
  let env := Sample.env (ClosedAfter [], None) (Sample.lines 1, Some Sample.EOF) Sample.ok in
  let r := Sample.request "c1" [("stdout", [""]); ("stderr", [""])] [] in
  ∃ s,
    streamLogsForContainers_run env r (filter_single_id env r) (initSt true)
      [ChProducer 0; ChProducer 0; ChLog 0; ChTick;
       ChProducer 0; ChProducer 0; ChEvent; ChDone] = Some (inl (Returned s)) ∧
    written (w s) =
      [Write ("data: " +:+ Sample.encode (Sample.line 1) +:+ LF);
       Write ("id: 1" +:+ LF); Write LF; Flush;
       Write (":ping " +:+ LF +:+ LF); Flush;
       Write ("event: container-event" +:+ LF +:+ "data: " +:+
              Sample.encodeEvent (stopped_event Sample.web) +:+ LF +:+ LF);
       Flush] ∧
    sent_header s "Content-Type" = Some ["text/event-stream"] ∧
    sent_header s "Cache-Control" = Some ["no-transform"; "no-cache"] ∧
    sent_header s "X-Accel-Buffering" = Some ["no"] ∧
    calls s =
      [CallListAllContainersFiltered; CallGo Sample.web;
       CallSubscribeContainersStarted;
       CallFindContainer "h1" "c1";
       CallStreamLogs Sample.web 1000 (Z.lor STDOUT STDERR)].
Proof.
  cbv zeta. eexists. split; [vm_compute; reflexivity|].
  split_and!; vm_compute; reflexivity.
Qed.

(** * Further properties of the handlers *)

(** ** downloadLogs *)

(** A download for a container the registry does not know is answered
    with status 400 and the lookup's message; no log is read and none
    of the download's headers is set. *)
Theorem download_unknown_container
    (env : Env) (r : Request) (flusher : bool) (err : GoError) :
  FindContainer env (hostKey env r) (chi_URLParam r "id") = inr err →
  ∃ s, downloadLogs env r (initSt flusher) = Returned s ∧
       wroteHeader (w s) = Some (StatusBadRequest, error_headers) ∧
       written (w s) = [Write (errMsg err +:+ LF)] ∧
       calls s = [CallFindContainer (hostKey env r) (chi_URLParam r "id")] ∧
       logged s = [].
Proof.
  intros Hfind. unfold downloadLogs. rewrite Hfind.
  eexists. split; [reflexivity|]. by split_and!.
Qed.

Lemma download_unknown_container_witness :
  let env := Sample.env (ClosedAfter [], None) ([], None) Sample.ok in
  let r := Sample.request "zz" [("stdout", [""])] [] in
  ∃ s, downloadLogs env r (initSt false) = Returned s ∧
       wroteHeader (w s) = Some (StatusBadRequest, error_headers) ∧
       written (w s) = [Write (errMsg Sample.notFound +:+ LF)] ∧
       calls s = [CallFindContainer (hostKey env r) (chi_URLParam r "id")] ∧
       logged s = [].
Proof.
  intros env r. apply (download_unknown_container env r false Sample.notFound).
  reflexivity.
Defined.

Lemma append_cons (c : Ascii.ascii) (p b : string) :
  String c p +:+ b = String c (p +:+ b).
Proof. reflexivity. Qed.

Lemma prefix_spec (p s : string) :
  String.prefix p s = true ↔ ∃ b, s = p +:+ b.
Proof.
  revert s. induction p as [|c p IH]; intros s.
  - destruct s; (split; [intros _; eexists; reflexivity|done]).
  - destruct s as [|c' s]; cbn [String.prefix].
    + split; [done|]. intros [b H]. rewrite append_cons in H. done.
    + destruct (Ascii.ascii_dec c c') as [->|Hne].
      * rewrite IH. split; intros [b H]; exists b; rewrite append_cons in *; congruence.
      * split; [done|]. intros [b H]. rewrite append_cons in H. congruence.
Qed.

(** [strings_Contains] finds the substring wherever it stands. *)
Lemma strings_Contains_spec (s sub : string) :
  strings_Contains s sub = true ↔ ∃ a b, s = a +:+ sub +:+ b.
Proof.
  induction s as [|c s IH]; cbn [strings_Contains];
    rewrite orb_true_iff, prefix_spec.
  - split.
    + intros [[b H]|?]; [|done]. by exists "", b.
    + intros (a & b & H). left.
      destruct a; [|by rewrite append_cons in H]. by exists b.
  - rewrite IH. split.
    + intros [[b H]|(a & b & H)].
      * by exists "", b.
      * exists (String c a), b. rewrite append_cons. by rewrite H.
    + intros (a & b & H). destruct a as [|c' a].
      * left. by exists b.
      * right. exists a, b. rewrite append_cons in H. congruence.
Qed.

(** A download that passes the checks, from a client whose
    Accept-Encoding mentions gzip anywhere: status 200, the log is
    read from the zero time up to now, the body is one gzip stream
    (the raw log of a tty container, the demultiplexed log otherwise)
    sent as a gzip-encoded text transfer under the name
    [name-time.log], which is also the name inside the gzip stream. *)
Theorem download_gzip_transfer
    (env : Env) (r : Request) (flusher : bool) (svc : Container)
    (reader a b : string) :
  stdTypes_of r ≠ 0 →
  FindContainer env (hostKey env r) (chi_URLParam r "id") = inl svc →
  RawLogs env svc zeroTime (time_Now env) (stdTypes_of r) = inl reader →
  Header_Get r "Accept-Encoding" = a +:+ "gzip" +:+ b →
  ∃ s, downloadLogs env r (initSt flusher) = Returned s ∧
       status_of (Returned s) = Some 200 ∧
       sent_header s "Content-Disposition" =
         Some ["attachment; filename=" +:+ download_file env svc] ∧
       sent_header s "Content-Encoding" = Some ["gzip"] ∧
       sent_header s "Content-Type" = Some ["application/text"] ∧
       written (w s) =
         [Write (gzip_bytes env
                   (mkGzipHeader (download_file env svc)
                                 "Logs generated by Dozzle" (time_Now env))
                   (if Tty svc then reader else stdcopy_StdCopy env reader))] ∧
       calls s =
         [CallFindContainer (hostKey env r) (chi_URLParam r "id");
          CallRawLogs svc zeroTime (time_Now env) (stdTypes_of r)] ∧
       logged s = [].
Proof.
  intros Hstd Hfind Hraw Hgz.
  assert (Hc : strings_Contains (Header_Get r "Accept-Encoding") "gzip" = true)
    by (apply strings_Contains_spec; eauto).
  unfold downloadLogs. rewrite Hfind, Hc.
  destruct (stdTypes_of r =? 0) eqn:E; [apply Z.eqb_eq in E; done|].
  rewrite Hraw. eexists. split; [reflexivity|]. by split_and!.
Qed.

Lemma download_gzip_transfer_witness :
  let env := Sample.env (ClosedAfter [], None) ([], None) Sample.ok in
  let r := Sample.request "c1" [("stdout", [""])] [("Accept-Encoding", "gzip, deflate")] in
  ∃ s, downloadLogs env r (initSt false) = Returned s ∧
       status_of (Returned s) = Some 200 ∧
       sent_header s "Content-Disposition" =
         Some ["attachment; filename=" +:+ download_file env Sample.web] ∧
       sent_header s "Content-Encoding" = Some ["gzip"] ∧
       sent_header s "Content-Type" = Some ["application/text"] ∧
       written (w s) =
         [Write (gzip_bytes env
                   (mkGzipHeader (download_file env Sample.web)
                                 "Logs generated by Dozzle" (time_Now env))
                   (if Tty Sample.web then "raw" else stdcopy_StdCopy env "raw"))] ∧
       calls s =
         [CallFindContainer (hostKey env r) (chi_URLParam r "id");
          CallRawLogs Sample.web zeroTime (time_Now env) (stdTypes_of r)] ∧
       logged s = [].
Proof.
  intros env r.
  apply (download_gzip_transfer env r false Sample.web "raw" "" ", deflate").
  - vm_compute. discriminate.
  - reflexivity.
  - reflexivity.
  - reflexivity.
Defined.

(** The same download from a client whose Accept-Encoding does not
    mention gzip: the same gzip stream, sent as a file of type
    application/gzip named [name-time.log.gz], with no
    Content-Encoding. *)
Theorem download_gzip_file
    (env : Env) (r : Request) (flusher : bool) (svc : Container) (reader : string) :
  stdTypes_of r ≠ 0 →
  FindContainer env (hostKey env r) (chi_URLParam r "id") = inl svc →
  RawLogs env svc zeroTime (time_Now env) (stdTypes_of r) = inl reader →
  (∀ a b, Header_Get r "Accept-Encoding" ≠ a +:+ "gzip" +:+ b) →
  ∃ s, downloadLogs env r (initSt flusher) = Returned s ∧
       status_of (Returned s) = Some 200 ∧
       sent_header s "Content-Disposition" =
         Some ["attachment; filename=" +:+ download_file env svc +:+ ".gz"] ∧
       sent_header s "Content-Encoding" = None ∧
       sent_header s "Content-Type" = Some ["application/gzip"] ∧
       written (w s) =
         [Write (gzip_bytes env
                   (mkGzipHeader (download_file env svc)
                                 "Logs generated by Dozzle" (time_Now env))
                   (if Tty svc then reader else stdcopy_StdCopy env reader))].
Proof.
  intros Hstd Hfind Hraw Hgz.
  assert (Hc : strings_Contains (Header_Get r "Accept-Encoding") "gzip" = false).
  { apply not_true_is_false. intros (a & b & H)%strings_Contains_spec.
    by apply (Hgz a b). }
  unfold downloadLogs. rewrite Hfind, Hc.
  destruct (stdTypes_of r =? 0) eqn:E; [apply Z.eqb_eq in E; done|].
  rewrite Hraw. eexists. split; [reflexivity|]. by split_and!.
Qed.

Lemma download_gzip_file_witness :
  let env := Sample.env (ClosedAfter [], None) ([], None) Sample.ok in
  let r := Sample.request "c1" [("stderr", [""])] [] in
  ∃ s, downloadLogs env r (initSt false) = Returned s ∧
       status_of (Returned s) = Some 200 ∧
       sent_header s "Content-Disposition" =
         Some ["attachment; filename=" +:+ download_file env Sample.web +:+ ".gz"] ∧
       sent_header s "Content-Encoding" = None ∧
       sent_header s "Content-Type" = Some ["application/gzip"] ∧
       written (w s) =
         [Write (gzip_bytes env
                   (mkGzipHeader (download_file env Sample.web)
                                 "Logs generated by Dozzle" (time_Now env))
                   (if Tty Sample.web then "raw" else stdcopy_StdCopy env "raw"))].
Proof.
  intros env r.
  apply (download_gzip_file env r false Sample.web "raw").
  - vm_compute. discriminate.
  - reflexivity.
  - reflexivity.
  - intros a b H.
    assert (Hc : strings_Contains (Header_Get r "Accept-Encoding") "gzip" = true)
      by (apply strings_Contains_spec; eauto).
    vm_compute in Hc. discriminate.
Defined.

(** When the raw log cannot be opened the download answers 500 with
    the error's message, and the gzip writer, closed on the way out,
    still appends an empty gzip stream to the body; the download's
    Content-Disposition stays on the response. *)
Theorem download_raw_logs_error
    (env : Env) (r : Request) (flusher : bool) (svc : Container) (err : GoError) :
  stdTypes_of r ≠ 0 →
  FindContainer env (hostKey env r) (chi_URLParam r "id") = inl svc →
  RawLogs env svc zeroTime (time_Now env) (stdTypes_of r) = inr err →
  ∃ s, downloadLogs env r (initSt flusher) = Returned s ∧
       status_of (Returned s) = Some StatusInternalServerError ∧
       written (w s) =
         [Write (errMsg err +:+ LF);
          Write (gzip_bytes env
                   (mkGzipHeader (download_file env svc)
                                 "Logs generated by Dozzle" (time_Now env)) "")] ∧
       sent_header s "Content-Type" = Some ["text/plain; charset=utf-8"] ∧
       is_Some (sent_header s "Content-Disposition").
Proof.
  intros Hstd Hfind Hraw.
  unfold downloadLogs. rewrite Hfind.
  destruct (stdTypes_of r =? 0) eqn:E; [apply Z.eqb_eq in E; done|].
  rewrite Hraw. eexists. split; [reflexivity|].
  destruct (strings_Contains _ _); split_and!; try done.
  all: unfold sent_header; cbn; eexists; reflexivity.
Qed.

Lemma download_raw_logs_error_witness :
  let env := with_RawLogs (λ _ _ _ _, inr Sample.daemonDown)
               (Sample.env (ClosedAfter [], None) ([], None) Sample.ok) in
  let r := Sample.request "c1" [("stdout", [""])] [] in
  ∃ s, downloadLogs env r (initSt false) = Returned s ∧
       status_of (Returned s) = Some StatusInternalServerError ∧
       written (w s) =
         [Write (errMsg Sample.daemonDown +:+ LF);
          Write (gzip_bytes env
                   (mkGzipHeader (download_file env Sample.web)
                                 "Logs generated by Dozzle" (time_Now env)) "")] ∧
       sent_header s "Content-Type" = Some ["text/plain; charset=utf-8"] ∧
       is_Some (sent_header s "Content-Disposition").
Proof.
  intros env r.
  apply (download_raw_logs_error env r false Sample.web Sample.daemonDown).
  - vm_compute. discriminate.
  - reflexivity.
  - reflexivity.
Defined.

(** ** fetchLogsBetweenDates *)

(** A range export for a container the registry does not know is
    answered with status 404 and the lookup's message, and no log is
    fetched. *)
Theorem range_export_unknown_container
    (env : Env) (r : Request) (flusher : bool) (err : GoError) :
  stdTypes_of r ≠ 0 →
  FindContainer env (hostKey env r) (chi_URLParam r "id") = inr err →
  ∃ s, fetchLogsBetweenDates env r (initSt flusher) = Returned s ∧
       wroteHeader (w s) = Some (StatusNotFound, error_headers) ∧
       written (w s) = [Write (errMsg err +:+ LF)] ∧
       calls s = [CallFindContainer (hostKey env r) (chi_URLParam r "id")] ∧
       logged s = [].
Proof.
  intros Hstd Hfind. unfold fetchLogsBetweenDates.
  destruct (stdTypes_of r =? 0) eqn:E; [apply Z.eqb_eq in E; done|].
  rewrite Hfind. eexists. split; [reflexivity|]. by split_and!.
Qed.

Lemma range_export_unknown_container_witness :
  let env := Sample.env (ClosedAfter [], None) ([], None) Sample.ok in
  let r := Sample.request "zz" [("stdout", [""])] [] in
  ∃ s, fetchLogsBetweenDates env r (initSt false) = Returned s ∧
       wroteHeader (w s) = Some (StatusNotFound, error_headers) ∧
       written (w s) = [Write (errMsg Sample.notFound +:+ LF)] ∧
       calls s = [CallFindContainer (hostKey env r) (chi_URLParam r "id")] ∧
       logged s = [].
Proof.
  intros env r.
  apply (range_export_unknown_container env r false Sample.notFound).
  - vm_compute. discriminate.
  - reflexivity.
Defined.

Lemma written_or_logged (env : Env) (evs : list LogEvent) :
  (length (omap (line_of env) evs) + length (omap (encode_error_of env) evs))%nat
  = length evs.
Proof.
  induction evs as [|e evs IH]; [done|].
  cbn. unfold line_of at 1, encode_error_of at 1.
  destruct (json_Marshal env e); cbn; lia.
Qed.

(** In a range export every event the buffer kept is either written as
    a JSON line or, when its encoding fails, logged and left out: the
    lines keep the order of the events, no event is both or neither,
    and the status stays 200 whatever fails to encode. *)
Theorem range_export_skips_unencodable_events
    (env : Env) (r : Request) (flusher : bool)
    (svc : Container) (evs : list LogEvent) :
  stdTypes_of r ≠ 0 →
  FindContainer env (hostKey env r) (chi_URLParam r "id") = inl svc →
  LogsBetweenDates env svc
    (parse_ignoring_error env (Query_Get r "from"))
    (parse_ignoring_error env (Query_Get r "to"))
    (stdTypes_of r) = (ClosedAfter evs, None) →
  let kept :=
    RingBuffer.Data (RingBuffer.pushAll evs (RingBuffer.NewRingBuffer 500)) in
  ∃ s, fetchLogsBetweenDates env r (initSt flusher) = Returned s ∧
       written (w s) = omap (line_of env) kept ∧
       logged s = omap (encode_error_of env) kept ∧
       (length (written (w s)) + length (logged s))%nat = length kept ∧
       status_of (Returned s) = Some 200.
Proof.
  intros Hstd Hfind Hlogs kept.
  unfold fetchLogsBetweenDates.
  destruct (stdTypes_of r =? 0) eqn:E; [apply Z.eqb_eq in E; done|].
  rewrite Hfind, Hlogs. fold kept.
  eexists. split; [reflexivity|].
  edestruct (encode_all env kept) as (Hw & Hl & _ & _ & Hs); [|
    rewrite Hw, Hl; split_and!; [done|done|apply written_or_logged
                                |by apply sent_ok_status]].
  by left.
Qed.

Lemma range_export_skips_unencodable_events_witness :
  let env := Sample.env (ClosedAfter (Sample.lines 3), None) ([], None) Sample.failing in
  let r := Sample.request "c1" [("stdout", [""])] [] in
  let kept :=
    RingBuffer.Data
      (RingBuffer.pushAll (Sample.lines 3) (RingBuffer.NewRingBuffer 500)) in
  ∃ s, fetchLogsBetweenDates env r (initSt false) = Returned s ∧
       written (w s) = omap (line_of env) kept ∧
       logged s = omap (encode_error_of env) kept ∧
       (length (written (w s)) + length (logged s))%nat = length kept ∧
       status_of (Returned s) = Some 200.
Proof.
  intros env r.
  apply (range_export_skips_unencodable_events env r false Sample.web (Sample.lines 3)).
  - vm_compute. discriminate.
  - reflexivity.
  - reflexivity.
Defined.

(** ** The stream-type selection *)

(** A stream is selected by the presence of its key in the query,
    whatever the key's values: the selection has the stdout flag
    exactly when the query has a [stdout] key and the stderr flag
    exactly when it has a [stderr] key, and it is one of 0, 1, 2, 3. *)
Theorem selection_by_key_presence (r : Request) :
  (Z.land (stdTypes_of r) STDOUT ≠ 0 ↔ is_Some (Query r !! "stdout")) ∧
  (Z.land (stdTypes_of r) STDERR ≠ 0 ↔ is_Some (Query r !! "stderr")) ∧
  0 ≤ stdTypes_of r ≤ Z.lor STDOUT STDERR.
Proof.
  unfold stdTypes_of, Query_Has.
  destruct (decide (is_Some (Query r !! "stdout"))) as [Ho|Ho],
           (decide (is_Some (Query r !! "stderr"))) as [He|He];
    rewrite ?(bool_decide_eq_true_2 _ Ho), ?(bool_decide_eq_false_2 _ Ho),
            ?(bool_decide_eq_true_2 _ He), ?(bool_decide_eq_false_2 _ He);
    (split; [|split; [|by compute]]);
    unfold STDOUT, STDERR; cbn; split; intros ?; done.
Qed.

(** ** streamLogsForContainers: before the loop *)

(** With a writer that cannot flush, a streaming request is answered
    with status 500 and nothing else happens: no listing, no
    subscription, no producer. *)
Theorem stream_without_flusher
    (env : Env) (r : Request) (filter : ContainerFilter) :
  stdTypes_of r ≠ 0 →
  ∃ s, streamLogsForContainers env r filter (initSt false) = inl (Returned s) ∧
       wroteHeader (w s) = Some (StatusInternalServerError, error_headers) ∧
       written (w s) = [Write ("Streaming unsupported!" +:+ LF)] ∧
       calls s = [] ∧ logged s = [].
Proof.
  intros Hstd. unfold streamLogsForContainers.
  destruct (stdTypes_of r =? 0) eqn:E; [apply Z.eqb_eq in E; done|].
  cbn. eexists. split; [reflexivity|]. by split_and!.
Qed.

Lemma stream_without_flusher_witness :
  let env := Sample.env (ClosedAfter [], None) ([], None) Sample.ok in
  let r := Sample.request "c1" [("stdout", [""])] [] in
  ∃ s, streamLogsForContainers env r (filter_single_id env r) (initSt false)
         = inl (Returned s) ∧
       wroteHeader (w s) = Some (StatusInternalServerError, error_headers) ∧
       written (w s) = [Write ("Streaming unsupported!" +:+ LF)] ∧
       calls s = [] ∧ logged s = [].
Proof.
  intros env r. apply (stream_without_flusher env r (filter_single_id env r)).
  vm_compute. discriminate.
Defined.

Lemma spawn_existing (cs : list Container) (s : St) :
  w (foldl (λ s c, call (CallGo c) s) s cs) = w s ∧
  logged (foldl (λ s c, call (CallGo c) s) s cs) = logged s ∧
  calls (foldl (λ s c, call (CallGo c) s) s cs) = (calls s ++ map CallGo cs)%list.
Proof.
  revert s. induction cs as [|c cs IH]; intros s; cbn [foldl map].
  - by rewrite app_nil_r.
  - destruct (IH (call (CallGo c) s)) as (-> & -> & ->).
    cbn. by rewrite <- app_assoc.
Qed.

(** A streaming request that passes the checks sets the headers of an
    event stream and sends nothing yet; it lists the containers once,
    starts one producer per listed container, in the order of the
    listing, and then subscribes to container starts.  Errors of the
    listing are logged as one warning and are not fatal.  The handler
    itself looks no container up. *)
Theorem stream_session_setup
    (env : Env) (r : Request) (filter : ContainerFilter)
    (cs : list Container) (errs : list GoError) :
  stdTypes_of r ≠ 0 →
  ListAllContainersFiltered env filter = (cs, errs) →
  ∃ x, streamLogsForContainers env r filter (initSt true) = inr x ∧
       header (w (st x)) = sse_headers ∧
       wroteHeader (w (st x)) = None ∧
       written (w (st x)) = [] ∧
       producers x = map (streamLogs env (stdTypes_of r)) cs ∧
       calls (st x) =
         (CallListAllContainersFiltered :: map CallGo cs
            ++ [CallSubscribeContainersStarted])%list ∧
       logged (st x) =
         match errs with
         | [] => []
         | _ :: _ =>
             [mkLog WarnLevel
                ("error while listing containers " +:+ fmt_errs env errs) None]
         end ∧
       events x = [] ∧
       loop x = Looping.
Proof.
  intros Hstd Hlist. unfold streamLogsForContainers.
  destruct (stdTypes_of r =? 0) eqn:E; [apply Z.eqb_eq in E; done|].
  cbn [initSt newWriter isFlusher w negb]. rewrite Hlist.
  eexists. split; [reflexivity|]. cbn [st events producers loop].
  cbn [call w logged calls].
  match goal with
  | |- context [foldl _ ?s0 cs] =>
      destruct (spawn_existing cs s0) as (Hw & Hl & Hc)
  end.
  rewrite Hw, Hl, Hc. split_and!; try done; by destruct errs.
Qed.

Lemma stream_session_setup_witness :
  let env := Sample.env (ClosedAfter [], None) ([], None) Sample.ok in
  let r := Sample.request "" [("stdout", [""])] [] in
  let filter : ContainerFilter := λ _, true in
  ∃ x, streamLogsForContainers env r filter (initSt true) = inr x ∧
       header (w (st x)) = sse_headers ∧
       wroteHeader (w (st x)) = None ∧
       written (w (st x)) = [] ∧
       producers x = map (streamLogs env (stdTypes_of r)) [Sample.web; Sample.job] ∧
       calls (st x) =
         (CallListAllContainersFiltered :: map CallGo [Sample.web; Sample.job]
            ++ [CallSubscribeContainersStarted])%list ∧
       logged (st x) = [] ∧
       events x = [] ∧
       loop x = Looping.
Proof.
  intros env r filter.
  apply (stream_session_setup env r filter [Sample.web; Sample.job] []).
  - vm_compute. discriminate.
  - reflexivity.
Defined.

(** streamLogsMerged asks for its ids first: without an [id] key the
    request is refused with status 400 before the stream-type selection
    is looked at and before any work. *)
Theorem merged_requires_ids (env : Env) (r : Request) (flusher : bool) :
  Query r !! "id" = None →
  ∃ o, streamLogsMerged env r (initSt flusher) = inl o ∧
       refused_before_work "ids query parameter is required" o.
Proof.
  intros Hid. unfold streamLogsMerged, Query_Has. rewrite Hid.
  rewrite bool_decide_eq_false_2 by (by intros [? ?]). cbn.
  eexists. split; [reflexivity|]. eexists. split; [reflexivity|]. by split_and!.
Qed.

Lemma merged_requires_ids_witness :
  let env := Sample.env (ClosedAfter [], None) ([], None) Sample.ok in
  let r := Sample.request "" [("stdout", [""]); ("stderr", [""])] [] in
  ∃ o, streamLogsMerged env r (initSt true) = inl o ∧
       refused_before_work "ids query parameter is required" o.
Proof.
  intros env r. apply (merged_requires_ids env r true). reflexivity.
Defined.

(** ** The merge loop under any schedule *)

Lemma on_done_w (env : Env) (s : St) : w (on_done env s) = w s.
Proof. unfold on_done. by destruct (IsDebugEnabled env). Qed.

(** A property of the handler's state that every case of the [select]
    keeps, and that only depends on the response writer, holds after
    every step and every run. *)
Section LoopInvariant.
Variables (env : Env) (filter : ContainerFilter) (std : StdType).
Variable P : St → Prop.
Hypothesis P_log : ∀ e s, P s → P (on_log env e s).
Hypothesis P_tick : ∀ s, P s → P (on_tick s).
Hypothesis P_event : ∀ ev s, P s → P (on_event env ev s).
Hypothesis P_writer : ∀ s s', w s' = w s → P s → P s'.

Lemma step_keeps (x x' : Session) (ch : Choice) :
  P (st x) → step env filter std x ch = Some x' → P (st x').
Proof.
  intros HP. unfold step.
  destruct ch as [i| |c| | |i].
  - destruct (producers x !! i) as [[|[] ?]|]; try done.
    destruct (is_looping x); [|done]. intros [= <-]. by apply P_log.
  - destruct (is_looping x); [|done]. intros [= <-]. by apply P_tick.
  - destruct (is_looping x && filter c); [|done].
    case_decide; intros [= <-]; [|done].
    eapply P_writer; [|exact HP]. done.
  - destruct (events x) as [|ev rest]; [done|].
    destruct (is_looping x); [|done]. intros [= <-]. by apply P_event.
  - destruct (is_looping x); [|done]. intros [= <-].
    eapply P_writer; [apply on_done_w|done].
  - destruct (producers x !! i) as [[|[] ?]|]; try done.
    + intros [= <-]. eapply P_writer; [|exact HP]. done.
    + intros [= <-]. eapply P_writer; [|exact HP]. done.
    + case_decide; [|done]. by intros [= <-].
Qed.

Lemma run_keeps (sched : list Choice) (x x' : Session) :
  P (st x) → run env filter std x sched = Some x' → P (st x').
Proof.
  revert x. induction sched as [|ch sched IH]; intros x HP; cbn.
  - by intros [= <-].
  - destruct (step env filter std x ch) as [x1|] eqn:E; [|done].
    apply IH. by eapply step_keeps.
Qed.
End LoopInvariant.

(** What the handler has set up when the loop starts. *)
Lemma start_writer (env : Env) (r : Request) (filter : ContainerFilter)
    (flusher : bool) (x : Session) :
  streamLogsForContainers env r filter (initSt flusher) = inr x →
  header (w (st x)) = sse_headers ∧
  wroteHeader (w (st x)) = None ∧
  written (w (st x)) = [].
Proof.
  unfold streamLogsForContainers.
  destruct (stdTypes_of r =? 0); [done|].
  destruct flusher; [|done]. cbn [initSt newWriter isFlusher w negb].
  destruct (ListAllContainersFiltered env filter) as [cs errs].
  intros [= <-]. cbn [st call w].
  match goal with
  | |- context [foldl _ ?s0 cs] => destruct (spawn_existing cs s0) as (-> & _ & _)
  end.
  by destruct (0 <? length errs)%nat.
Qed.

Lemma flushed_append (s s' : St) (ops : list Op) :
  written (w s') = (written (w s) ++ ops ++ [Flush])%list → flushed s'.
Proof. intros H. right. exists (written (w s) ++ ops)%list. by rewrite <- app_assoc. Qed.

Lemma flushed_writer (s s' : St) : w s' = w s → flushed s → flushed s'.
Proof. unfold flushed. by intros ->. Qed.

Lemma flushed_on_log (env : Env) (e : LogEvent) (s : St) :
  flushed s → flushed (on_log env e s).
Proof.
  intros _. right. rewrite on_log_written.
  exists (written (w s) ++
          match json_Marshal env e with
          | inl buf => [Write ("data: " +:+ buf +:+ LF)]
          | inr _ => []
          end ++ id_line (Timestamp e) ++ [Write LF])%list.
  by rewrite <- !app_assoc.
Qed.

Lemma flushed_on_tick (s : St) : flushed s → flushed (on_tick s).
Proof.
  intros _. apply (flushed_append s _ [Write (":ping " +:+ LF +:+ LF)]).
  unfold on_tick. cbn [onW w]. by rewrite w_Flush_written, w_Write_written, <- app_assoc.
Qed.

Lemma flushed_on_event (env : Env) (ev : ContainerEvent) (s : St) :
  flushed s → flushed (on_event env ev s).
Proof.
  intros Hs. destruct (json_MarshalEvent env ev) as [buf|err] eqn:E.
  - eapply (flushed_append s _ [_]). by rewrite (on_event_written env ev buf).
  - eapply flushed_writer; [|done]. by eapply lifecycle_frame_on_encoding_error.
Qed.

(** Every write of a streaming session is followed by a flush before
    the loop waits again: whatever the schedule, the transport is either
    untouched or its last operation is a flush. *)
Theorem stream_is_always_flushed
    (env : Env) (r : Request) (filter : ContainerFilter) (flusher : bool)
    (sched : list Choice) (x0 x : Session) :
  streamLogsForContainers env r filter (initSt flusher) = inr x0 →
  run env filter (stdTypes_of r) x0 sched = Some x →
  written (w (st x)) = [] ∨ ∃ ops, written (w (st x)) = (ops ++ [Flush])%list.
Proof.
  intros Hstart Hrun.
  apply (run_keeps env filter (stdTypes_of r) flushed
           (flushed_on_log env) flushed_on_tick (flushed_on_event env)
           flushed_writer sched x0 x); [|done].
  left. by apply (start_writer env r filter flusher).
Qed.

Lemma stream_is_always_flushed_witness :
  let env := Sample.env (ClosedAfter [], None) (Sample.lines 1, Some Sample.EOF) Sample.ok in
  let r := Sample.request "c1" [("stdout", [""])] [] in
  let sched := [ChProducer 0; ChProducer 0; ChLog 0; ChTick] in
  let x0 := session_of (streamLogsForContainers env r (filter_single_id env r) (initSt true)) in
  let x := end_of (run env (filter_single_id env r) (stdTypes_of r) x0 sched) in
  streamLogsForContainers env r (filter_single_id env r) (initSt true) = inr x0 ∧
  run env (filter_single_id env r) (stdTypes_of r) x0 sched = Some x ∧
  (written (w (st x)) = [] ∨ ∃ ops, written (w (st x)) = (ops ++ [Flush])%list).
Proof.
  intros env r sched x0 x.
  split; [vm_compute; reflexivity|]. split; [vm_compute; reflexivity|].
  apply (stream_is_always_flushed env r (filter_single_id env r) true sched x0 x);
    vm_compute; reflexivity.
Defined.

Lemma sse_writer (s s' : St) : w s' = w s → sse_response s → sse_response s'.
Proof. unfold sse_response. by intros ->. Qed.

Lemma w_Write_header (txt : string) (wr : ResponseWriter) :
  header (w_Write txt wr) = header wr ∧
  wroteHeader (w_Write txt wr) = Some (default (200, header wr) (wroteHeader wr)).
Proof.
  unfold w_Write, WriteHeader.
  destruct (wroteHeader wr) eqn:E; cbn; by rewrite ?E.
Qed.

Lemma w_Flush_header (wr : ResponseWriter) :
  header (w_Flush wr) = header wr ∧
  wroteHeader (w_Flush wr) = Some (default (200, header wr) (wroteHeader wr)).
Proof.
  unfold w_Flush, WriteHeader.
  destruct (wroteHeader wr) eqn:E; cbn; by rewrite ?E.
Qed.

Lemma sse_write (txt : string) (s : St) :
  sse_response s → sse_response (onW (w_Write txt) s).
Proof.
  intros [Hh Hcase]. destruct (w_Write_header txt (w s)) as [Hh' Hs'].
  split; cbn [onW w]; [by rewrite Hh'|]. right. rewrite Hs'.
  destruct Hcase as [[-> _]| ->]; cbn; by rewrite ?Hh.
Qed.

Lemma sse_flush (s : St) : sse_response s → sse_response (onW w_Flush s).
Proof.
  intros [Hh Hcase]. destruct (w_Flush_header (w s)) as [Hh' Hs'].
  split; cbn [onW w]; [by rewrite Hh'|]. right. rewrite Hs'.
  destruct Hcase as [[-> _]| ->]; cbn; by rewrite ?Hh.
Qed.

Lemma sse_on_log (env : Env) (e : LogEvent) (s : St) :
  sse_response s → sse_response (on_log env e s).
Proof.
  intros Hs. unfold on_log. apply sse_flush, sse_write.
  destruct (0 <? Timestamp e); [apply sse_write|];
    (destruct (json_Marshal env e); [by apply sse_write|by eapply sse_writer]).
Qed.

Lemma sse_on_tick (s : St) : sse_response s → sse_response (on_tick s).
Proof. intros Hs. by apply sse_flush, sse_write. Qed.

Lemma sse_on_event (env : Env) (ev : ContainerEvent) (s : St) :
  sse_response s → sse_response (on_event env ev s).
Proof.
  intros Hs. unfold on_event. destruct (json_MarshalEvent env ev).
  - apply sse_flush, sse_write. by eapply sse_writer.
  - by eapply sse_writer.
Qed.

(** Whatever the schedule, a streaming session answers with status 200
    and the headers of an event stream, and with nothing else: as soon
    as anything has been written the status sent is 200 with exactly
    those headers, and no later step changes them. *)
Theorem stream_status_and_headers
    (env : Env) (r : Request) (filter : ContainerFilter) (flusher : bool)
    (sched : list Choice) (x0 x : Session) :
  streamLogsForContainers env r filter (initSt flusher) = inr x0 →
  run env filter (stdTypes_of r) x0 sched = Some x →
  header (w (st x)) = sse_headers ∧
  (written (w (st x)) ≠ [] → wroteHeader (w (st x)) = Some (200, sse_headers)) ∧
  (∀ code h, wroteHeader (w (st x)) = Some (code, h) → code = 200 ∧ h = sse_headers).
Proof.
  intros Hstart Hrun.
  assert (H : sse_response (st x)).
  { apply (run_keeps env filter (stdTypes_of r) sse_response
             (sse_on_log env) sse_on_tick (sse_on_event env)
             sse_writer sched x0 x); [|done].
    destruct (start_writer env r filter flusher x0 Hstart) as (Hh & Hn & Hw).
    split; [done|]. by left. }
  destruct H as [Hh [[Hn Hw]|Hs]]; split_and!; try done.
  - rewrite Hn. by intros.
  - rewrite Hs. by intros code h [= <- <-].
Qed.

Lemma stream_status_and_headers_witness :
  let env := Sample.env (ClosedAfter [], None) (Sample.lines 1, Some Sample.EOF) Sample.ok in
  let r := Sample.request "c1" [("stdout", [""])] [] in
  let sched := [ChTick; ChProducer 0; ChProducer 0; ChLog 0] in
  let x0 := session_of (streamLogsForContainers env r (filter_single_id env r) (initSt true)) in
  let x := end_of (run env (filter_single_id env r) (stdTypes_of r) x0 sched) in
  streamLogsForContainers env r (filter_single_id env r) (initSt true) = inr x0 ∧
  run env (filter_single_id env r) (stdTypes_of r) x0 sched = Some x ∧
  header (w (st x)) = sse_headers ∧
  (written (w (st x)) ≠ [] → wroteHeader (w (st x)) = Some (200, sse_headers)) ∧
  (∀ code h, wroteHeader (w (st x)) = Some (code, h) → code = 200 ∧ h = sse_headers).
Proof.
  intros env r sched x0 x.
  split; [vm_compute; reflexivity|]. split; [vm_compute; reflexivity|].
  apply (stream_status_and_headers env r (filter_single_id env r) true sched x0 x);
    vm_compute; reflexivity.
Defined.

(** Once the loop has exited, only producers still take steps, and they
    do not touch the response. *)
Lemma exited_run_is_silent
    (env : Env) (filter : ContainerFilter) (std : StdType)
    (sched : list Choice) (x x' : Session) :
  loop x = Exited →
  run env filter std x sched = Some x' →
  loop x' = Exited ∧ w (st x') = w (st x).
Proof.
  revert x. induction sched as [|ch sched IH]; intros x Hloop; cbn.
  - by intros [= <-].
  - destruct (step env filter std x ch) as [x1|] eqn:E; [|done].
    assert (loop x1 = Exited ∧ w (st x1) = w (st x)) as [Hl Hw].
    { revert E. unfold step, is_looping. rewrite Hloop.
      destruct ch as [i| |c| | |i]; cbn; try done.
      - by destruct (producers x !! i) as [[|[] ?]|].
      - by destruct (events x).
      - destruct (producers x !! i) as [[|[] ?]|]; try done.
        + by intros [= <-].
        + by intros [= <-].
        + case_decide; [|done]. by intros [= <-]. }
    intros Hrun. destruct (IH x1 Hl Hrun) as [Hl' Hw'].
    by rewrite Hl', Hw', Hw.
Qed.

(** Cancellation writes nothing, and nothing is written after it: from
    the step that takes the cancellation on, whatever the producers
    still do, the response stays as it was, and the loop handles no
    further log event, tick, lifecycle event or notification. *)
Theorem nothing_written_after_cancellation
    (env : Env) (filter : ContainerFilter) (std : StdType)
    (sched : list Choice) (x x' : Session) :
  loop x = Looping →
  run env filter std x (ChDone :: sched) = Some x' →
  w (st x') = w (st x) ∧ loop x' = Exited ∧
  ∀ ch, step env filter std x' ch ≠ None → ∃ i, ch = ChProducer i.
Proof.
  intros Hloop. cbn [run]. unfold step at 1, is_looping. rewrite Hloop.
  intros Hrun.
  edestruct (exited_run_is_silent env filter std sched) as [Hl Hw];
    [|exact Hrun|]; [reflexivity|].
  cbn in Hw. rewrite on_done_w in Hw. split_and!; try done.
  intros ch. unfold step, is_looping. rewrite Hl.
  destruct ch as [i| |c| | |i]; cbn; try done.
  - by destruct (producers x' !! i) as [[|[] ?]|].
  - by destruct (events x').
  - eauto.
Qed.

Lemma nothing_written_after_cancellation_witness :
  let env := Sample.env (ClosedAfter [], None) (Sample.lines 1, Some Sample.EOF) Sample.ok in
  let r := Sample.request "c1" [("stdout", [""])] [] in
  let filter := filter_single_id env r in
  let x := session_of (streamLogsForContainers env r filter (initSt true)) in
  let x' := end_of (run env filter STDOUT x [ChDone; ChProducer 0; ChProducer 0]) in
  w (st x') = w (st x) ∧ loop x' = Exited ∧
  ∀ ch, step env filter STDOUT x' ch ≠ None → ∃ i, ch = ChProducer i.
Proof.
  intros env r filter x x'.
  apply (nothing_written_after_cancellation env filter STDOUT
           [ChProducer 0; ChProducer 0] x x'); vm_compute; reflexivity.
Defined.



(** A lifecycle event whose encoding fails is taken from the channel
    and lost: the loop logs the error, writes and flushes nothing, and
    goes on. *)
Theorem unencodable_lifecycle_event_is_dropped
    (env : Env) (filter : ContainerFilter) (std : StdType)
    (x : Session) (ev : ContainerEvent) (rest : list ContainerEvent) (err : GoError) :
  loop x = Looping →
  events x = ev :: rest →
  json_MarshalEvent env ev = inr err →
  ∃ x', step env filter std x ChEvent = Some x' ∧
        w (st x') = w (st x) ∧
        events x' = rest ∧
        loop x' = Looping ∧
        logged (st x') =
          (logged (st x) ++
           [mkLog DebugLevel ("received container event " +:+ fmt_event env ev) None;
            mkLog ErrorLevel
              ("json encoding error while streaming " +:+ errMsg err) None])%list.
Proof.
  intros Hloop Hev Herr. unfold step, is_looping. rewrite Hev, Hloop.
  eexists. split; [reflexivity|]. cbn [st events loop].
  unfold on_event. rewrite Herr. cbn. by rewrite <- app_assoc.
Qed.

Lemma unencodable_lifecycle_event_is_dropped_witness :
  let env := with_MarshalEvent (λ _, inr Sample.unsupported)
               (Sample.env (ClosedAfter [], None) ([], None) Sample.ok) in
  let ev := stopped_event Sample.web in
  let x := mkSession (initSt true) [ev] [] Looping in
  ∃ x', step env (λ _, true) STDOUT x ChEvent = Some x' ∧
        w (st x') = w (st x) ∧
        events x' = [] ∧
        loop x' = Looping ∧
        logged (st x') =
          (logged (st x) ++
           [mkLog DebugLevel ("received container event " +:+ fmt_event env ev) None;
            mkLog ErrorLevel
              ("json encoding error while streaming " +:+ errMsg Sample.unsupported)
              None])%list.
Proof.
  intros env ev x.
  apply (unencodable_lifecycle_event_is_dropped env (λ _, true) STDOUT x ev []
           Sample.unsupported); reflexivity.
Defined.

(** The log events a producer sends are framed one by one, in the order
    of its sends, each frame flushed before the next event is taken;
    the producer is then left with what follows its sends. *)
Theorem producer_events_framed_in_order
    (env : Env) (filter : ContainerFilter) (std : StdType)
    (evs : list LogEvent) (x : Session) (i : nat) (rest : list ProducerAct) :
  loop x = Looping →
  producers x !! i = Some (map PSendLog evs ++ rest)%list →
  ∃ x', run env filter std x (replicate (length evs) (ChLog i)) = Some x' ∧
        written (w (st x')) =
          (written (w (st x)) ++ concat (map (log_frame env) evs))%list ∧
        producers x' !! i = Some rest ∧
        events x' = events x ∧
        loop x' = Looping.
Proof.
  revert x. induction evs as [|e evs IH]; intros x Hloop Hi.
  - exists x. cbn. by rewrite app_nil_r.
  - cbn [length replicate run map concat]. cbn [map app] in Hi.
    unfold step, is_looping. rewrite Hi, Hloop.
    edestruct (IH (mkSession (on_log env e (st x)) (events x)
                     (<[i := (map PSendLog evs ++ rest)%list]> (producers x)) Looping))
      as (x' & Hrun & Hw & Hp & He & Hl); [done| |].
    + cbn. apply list_lookup_insert_eq. by eapply lookup_lt_Some.
    + exists x'. split; [done|]. rewrite Hw. cbn [st w events] in *.
      rewrite on_log_written. unfold log_frame.
      split_and!; try done. by rewrite <- !app_assoc.
Qed.

Lemma producer_events_framed_in_order_witness :
  let env := Sample.env (ClosedAfter [], None) ([], None) Sample.ok in
  let x := mkSession (initSt true) []
             [(map PSendLog (Sample.lines 3) ++ [PSendEvent (stopped_event Sample.web)])%list]
             Looping in
  ∃ x', run env (λ _, true) STDOUT x (replicate (length (Sample.lines 3)) (ChLog 0))
          = Some x' ∧
        written (w (st x')) =
          (written (w (st x)) ++ concat (map (log_frame env) (Sample.lines 3)))%list ∧
        producers x' !! 0%nat = Some [PSendEvent (stopped_event Sample.web)] ∧
        events x' = events x ∧
        loop x' = Looping.
Proof.
  intros env x.
  apply (producer_events_framed_in_order env (λ _, true) STDOUT (Sample.lines 3) x 0%nat);
    reflexivity.
Defined.

(** ** The producers *)

(** A producer whose stream ends without an error, or with a
    cancellation that is not an end-of-stream, ends silently: after
    the events of its stream it logs nothing and sends no lifecycle
    event. *)
Theorem producer_cancelled_is_silent
    (env : Env) (std : StdType) (c svc : Container)
    (sent : list LogEvent) (oerr : option GoError) :
  FindContainer env (Host c) (ID c) = inl svc →
  StreamLogs env svc (StartedAt c) std = (sent, oerr) →
  (∀ err, oerr = Some err → isEOF err = false ∧ isCanceled err = true) →
  streamLogs env std c = producer_prefix std c svc sent ∧
  (∀ l, PLog l ∉ streamLogs env std c) ∧
  (∀ ev, PSendEvent ev ∉ streamLogs env std c).
Proof.
  intros Hfind Hs Hc.
  assert (Heq : streamLogs env std c = producer_prefix std c svc sent).
  { unfold streamLogs, producer_prefix. rewrite Hfind, Hs.
    destruct oerr as [err|]; [|by rewrite app_nil_r].
    destruct (Hc err eq_refl) as [-> ->]. cbn. by rewrite app_nil_r. }
  rewrite Heq. split_and!; [done| |].
  - intros l. unfold producer_prefix. rewrite !not_elem_of_cons.
    split_and!; try done. by intros (e & ? & _)%list_elem_of_fmap.
  - intros ev. apply producer_prefix_sends_no_event.
Qed.

Lemma producer_cancelled_is_silent_witness :
  let env := Sample.env (ClosedAfter [], None)
               (Sample.lines 2, Some (mkError "context canceled" false true)) Sample.ok in
  streamLogs env STDOUT Sample.web =
    producer_prefix STDOUT Sample.web Sample.web (Sample.lines 2) ∧
  (∀ l, PLog l ∉ streamLogs env STDOUT Sample.web) ∧
  (∀ ev, PSendEvent ev ∉ streamLogs env STDOUT Sample.web).
Proof.
  intros env.
  apply (producer_cancelled_is_silent env STDOUT Sample.web Sample.web (Sample.lines 2)
           (Some (mkError "context canceled" false true))).
  - reflexivity.
  - reflexivity.
  - intros err [= <-]. split; reflexivity.
Defined.

(** ** The filters *)

(** The merged stream for a single id selects the same containers as
    the stream of that container. *)
Theorem merged_filter_for_one_id
    (env : Env) (r r' : Request) (c : Container) :
  Query_values r "id" = [chi_URLParam r' "id"] →
  hostKey env r = hostKey env r' →
  filter_id_set env r c = filter_single_id env r' c.
Proof.
  intros Hids Hhost. unfold filter_id_set, filter_single_id, ids_of.
  rewrite ids_lookup, lookup_empty, Hids, Hhost. f_equal.
  case_decide as Hin; case_bool_decide as Heq; try done.
  - apply list_elem_of_singleton in Hin. done.
  - exfalso. apply Hin. by apply list_elem_of_singleton.
Qed.

Lemma merged_filter_for_one_id_witness :
  let env := Sample.env (ClosedAfter [], None) ([], None) Sample.ok in
  let r := Sample.request "" [("id", ["c2"]); ("stdout", [""])] [] in
  let r' := Sample.request "c2" [("stdout", [""])] [] in
  filter_id_set env r Sample.job = filter_single_id env r' Sample.job.
Proof.
  intros env r r'. apply (merged_filter_for_one_id env r r' Sample.job); reflexivity.
Defined.

(** The merged stream depends on the set of its ids only: repeating an
    id or giving the ids in another order selects the same
    containers. *)
Theorem merged_filter_ignores_order_and_repeats
    (env : Env) (r r' : Request) (c : Container) :
  (∀ id, id ∈ Query_values r "id" ↔ id ∈ Query_values r' "id") →
  hostKey env r = hostKey env r' →
  filter_id_set env r c = filter_id_set env r' c.
Proof.
  intros Hids Hhost. unfold filter_id_set, ids_of.
  rewrite !ids_lookup, lookup_empty, Hhost. f_equal.
  case_decide as H1; case_decide as H2; try done; exfalso.
  - by apply H2, Hids.
  - by apply H1, Hids.
Qed.

Lemma merged_filter_ignores_order_and_repeats_witness :
  let env := Sample.env (ClosedAfter [], None) ([], None) Sample.ok in
  let r := Sample.request "" [("id", ["c1"; "c2"; "c1"])] [] in
  let r' := Sample.request "" [("id", ["c2"; "c1"])] [] in
  filter_id_set env r Sample.web = filter_id_set env r' Sample.web.
Proof.
  intros env r r'.
  apply (merged_filter_ignores_order_and_repeats env r r' Sample.web); [|reflexivity].
  intros id. vm_compute Query_values.
  rewrite !elem_of_cons, !elem_of_nil. tauto.
Defined.

(** A container that has no service label is selected by the service
    stream exactly when it is running and the requested service is the
    empty string; likewise for the stack label and the stack stream. *)
Theorem unlabelled_container_matches_empty_name (r : Request) (c : Container) :
  Labels c !! "com.docker.swarm.service.name" = None →
  Labels c !! "com.docker.stack.namespace" = None →
  (filter_service r c = true ↔
     State c = "running" ∧ chi_URLParam r "service" = "") ∧
  (filter_stack r c = true ↔
     State c = "running" ∧ chi_URLParam r "stack" = "").
Proof.
  intros Hs Hk. unfold filter_service, filter_stack, label.
  rewrite Hs, Hk. cbn [default].
  rewrite !andb_true_iff, !bool_decide_eq_true. intuition congruence.
Qed.

Lemma unlabelled_container_matches_empty_name_witness :
  let r := mkRequest ∅ ∅ ∅ in
  (filter_service r Sample.web = true ↔
     State Sample.web = "running" ∧ chi_URLParam r "service" = "") ∧
  (filter_stack r Sample.web = true ↔
     State Sample.web = "running" ∧ chi_URLParam r "stack" = "").
Proof.
  intros r. apply (unlabelled_container_matches_empty_name r Sample.web); reflexivity.
Defined.

(** ** Waiting for the channel, and the way of a stopped event *)

(** The range export sends nothing before the channel of events is
    closed: on a nil channel, or on one that delivers events and stays
    open, the handler blocks with no status and no body sent, whatever
    has arrived. *)
Theorem range_export_waits_for_close
    (env : Env) (r : Request) (flusher : bool)
    (svc : Container) (ch : EventChan) (oerr : option GoError) :
  stdTypes_of r ≠ 0 →
  FindContainer env (hostKey env r) (chi_URLParam r "id") = inl svc →
  LogsBetweenDates env svc
    (parse_ignoring_error env (Query_Get r "from"))
    (parse_ignoring_error env (Query_Get r "to"))
    (stdTypes_of r) = (ch, oerr) →
  (∀ evs, ch ≠ ClosedAfter evs) →
  ∃ s, fetchLogsBetweenDates env r (initSt flusher) = Blocked s ∧
       wroteHeader (w s) = None ∧
       written (w s) = [] ∧
       status_of (Blocked s) = None.
Proof.
  intros Hstd Hfind Hlogs Hopen. unfold fetchLogsBetweenDates.
  destruct (stdTypes_of r =? 0) eqn:E; [apply Z.eqb_eq in E; done|].
  rewrite Hfind, Hlogs.
  destruct ch as [|evs|evs]; [|by destruct (Hopen evs)|];
    (eexists; split; [reflexivity|]; by destruct oerr).
Qed.

Lemma range_export_waits_for_close_witness :
  let env := Sample.env (OpenAfter (Sample.lines 3), None) ([], None) Sample.ok in
  let r := Sample.request "c1" [("stdout", [""])] [] in
  ∃ s, fetchLogsBetweenDates env r (initSt false) = Blocked s ∧
       wroteHeader (w s) = None ∧
       written (w s) = [] ∧
       status_of (Blocked s) = None.
Proof.
  intros env r.
  apply (range_export_waits_for_close env r false Sample.web
           (OpenAfter (Sample.lines 3)) None).
  - vm_compute. discriminate.
  - reflexivity.
  - reflexivity.
  - intros evs. discriminate.
Defined.

(** The container-stopped event of a producer reaches the client as
    one lifecycle frame: with room on the lifecycle channel the
    producer's send goes through and ends the producer, and the loop's
    next receive from the channel writes and flushes the frame. *)
Theorem stopped_event_reaches_client
    (env : Env) (filter : ContainerFilter) (std : StdType)
    (x : Session) (i : nat) (c : Container) (buf : string) :
  loop x = Looping →
  events x = [] →
  producers x !! i = Some [PSendEvent (stopped_event c)] →
  json_MarshalEvent env (stopped_event c) = inl buf →
  ∃ x', run env filter std x [ChProducer i; ChEvent] = Some x' ∧
        written (w (st x')) = (written (w (st x)) ++ lifecycle_frame buf)%list ∧
        producers x' !! i = Some [] ∧
        events x' = [] ∧
        loop x' = Looping.
Proof.
  intros Hloop Hev Hi Hbuf.
  assert (E : step env filter std x (ChProducer i) =
              Some (mkSession (st x) [stopped_event c]
                              (<[i := []]> (producers x)) Looping)).
  { unfold step. rewrite Hi, Hev, Hloop. done. }
  cbn [run]. rewrite E. unfold step, is_looping. cbn [events loop st producers].
  eexists. split; [reflexivity|]. cbn [st events loop producers].
  rewrite (on_event_written env _ buf) by done. split_and!; try done.
  apply list_lookup_insert_eq. by eapply lookup_lt_Some.
Qed.

Lemma stopped_event_reaches_client_witness :
  let env := Sample.env (ClosedAfter [], None) ([], Some Sample.EOF) Sample.ok in
  let x := mkSession (initSt true) [] [[PSendEvent (stopped_event Sample.web)]] Looping in
  ∃ x', run env (λ _, true) STDOUT x [ChProducer 0; ChEvent] = Some x' ∧
        written (w (st x')) =
          (written (w (st x)) ++
           lifecycle_frame (Sample.encodeEvent (stopped_event Sample.web)))%list ∧
        producers x' !! 0%nat = Some [] ∧
        events x' = [] ∧
        loop x' = Looping.
Proof.
  intros env x.
  apply (stopped_event_reaches_client env (λ _, true) STDOUT x 0%nat Sample.web);
    reflexivity.
Defined.
